(** * Smart Task Planner: the goal-breakdown service of [backend/app/main.py]

    A shallow embedding of [AIService] (the model prober [break_down_goal],
    the response interpreter [_parse_ai_response], the fallback generator
    [_create_smart_tasks] and the timeframe heuristic [_parse_timeframe]),
    followed by the properties of the specification that concern them.

    Modelling conventions.
    - A Python [str] is a list of code points, one [ascii] per code point, so
      the text covered is the Latin-1 range U+0000..U+00FF.  The built-in
      string methods used by the service ([strip], [split], [lower],
      [isdigit], [startswith], [endswith], [in], slicing) and [int] are
      written out for that range.
    - Python integers are [Z]; [int] and [json.loads] refuse a numeral of
      more than 4300 digits, the default limit of the interpreter.
    - A float of a document is kept as the text of its literal, and a
      float that [sum] computes as the list of the numbers it added: the
      arithmetic of floats is not carried out.
    - A call either returns, raises, or (third outcome) continues with a
      value the embedding does not represent: the truth value of a float,
      or a code point above U+00FF coming out of a JSON escape.  Nothing is
      claimed about the third outcome.
    - [json.loads] and [requests.post] are library code: the service is
      parameterised over them, and a decoder for the JSON grammar is given
      so that complete runs can be evaluated on text. *)

From Stdlib Require Import String Ascii List ZArith NArith Bool Lia.
From Stdlib Require Import DecimalString DecimalNat.
Import ListNotations.
Open Scope Z_scope.

Set Implicit Arguments.
Set Warnings "-register-all,-notation-for-abbreviation".

(** ** Text *)

Module Text.

Notation str := (list ascii) (only parsing).

(** A literal. *)
Definition py (s : string) : str := list_ascii_of_string s.

Definition code (c : ascii) : N := N_of_ascii c.

Definition chr (n : N) : ascii := ascii_of_N n.

Definition str_eqb (a b : str) : bool :=
  String.eqb (string_of_list_ascii a) (string_of_list_ascii b).

(** [str.isspace] on one code point: TAB..CR, FS..US, SPACE, NEL, NBSP. *)
Definition isspace (c : ascii) : bool :=
  let n := code c in
  ((9 <=? n) && (n <=? 13) || (28 <=? n) && (n <=? 32)
   || (n =? 133) || (n =? 160))%N.

(** The characters ['0'..'9']. *)
Definition is_decimal (c : ascii) : bool :=
  let n := code c in ((48 <=? n) && (n <=? 57))%N.

(** [str.isdigit] on one code point: the decimal digits and the
    superscripts U+00B2, U+00B3, U+00B9. *)
Definition isdigit_char (c : ascii) : bool :=
  let n := code c in
  (is_decimal c || (n =? 178) || (n =? 179) || (n =? 185))%N.

(** [s.isdigit()]: non-empty and every character is a digit. *)
Definition isdigit (s : str) : bool :=
  match s with
  | [] => false
  | _ => forallb isdigit_char s
  end.

(** [c.lower()] on one code point: A..Z and the accented capitals
    U+00C0..U+00DE (U+00D7, the multiplication sign, apart). *)
Definition lower_char (c : ascii) : ascii :=
  let n := code c in
  if ((65 <=? n) && (n <=? 90)
      || (192 <=? n) && (n <=? 222) && negb (n =? 215))%N
  then chr (n + 32) else c.

Definition lower (s : str) : str := map lower_char s.

Fixpoint lstrip (s : str) : str :=
  match s with
  | c :: s' => if isspace c then lstrip s' else s
  | [] => []
  end.

Definition rstrip (s : str) : str := rev (lstrip (rev s)).

(** [s.strip()] *)
Definition strip (s : str) : str := rstrip (lstrip s).

(** [s.startswith(p)] *)
Fixpoint startswith (p s : str) : bool :=
  match p, s with
  | [], _ => true
  | a :: p', b :: s' => Ascii.eqb a b && startswith p' s'
  | _ :: _, [] => false
  end.

(** [s.endswith(p)] *)
Definition endswith (p s : str) : bool := startswith (rev p) (rev s).

(** [s[n:]] for [n >= 0] *)
Definition slice_from (n : nat) (s : str) : str := skipn n s.

(** [s[:-n]] for [n > 0] *)
Definition slice_to_minus (n : nat) (s : str) : str :=
  firstn (length s - n) s.

(** [p in s] *)
Fixpoint contains (p s : str) : bool :=
  startswith p s ||
  match s with
  | [] => false
  | _ :: s' => contains p s'
  end.

(** [s.split()]: the maximal runs of non-whitespace characters.  [cur] is
    the run being read, in reverse. *)
Fixpoint split_aux (cur : str) (s : str) : list str :=
  match s with
  | [] => match cur with [] => [] | _ => [rev cur] end
  | c :: s' =>
      if isspace c
      then match cur with
           | [] => split_aux [] s'
           | _ => rev cur :: split_aux [] s'
           end
      else split_aux (c :: cur) s'
  end.

Definition split (s : str) : list str := split_aux [] s.

(** The longest numeral [int] converts: [sys.get_int_max_str_digits()],
    which the service leaves at its default. *)
Definition max_str_digits : nat := 4300.

(** The value of a string of decimal digits, most significant first. *)
Definition decimal_value (s : str) : Z :=
  fold_left (fun acc c => 10 * acc + (Z.of_N (code c) - 48)) s 0.

(** [str(n)] for a natural number. *)
Definition str_of_nat (n : nat) : str :=
  py (NilEmpty.string_of_uint (Nat.to_uint n)).

(** [str(z)] for an integer. *)
Definition str_of_Z (z : Z) : str :=
  py (NilZero.string_of_int (Z.to_int z)).

End Text.
Import Text.

(** ** Outcomes of a call *)

(** The exceptions the service can meet.  All of them are subclasses of
    Python's [Exception], so the [except Exception] clause of
    [break_down_goal] catches every one. *)
Inductive exn : Type :=
| JSONDecodeError          (* json.loads: malformed text *)
| ParseFailure             (* Exception("Failed to parse AI response as JSON") *)
| NoCandidates             (* Exception("No candidates in response") *)
| HTTPStatus (code : Z)    (* Exception(f"HTTP {status_code}") *)
| RequestException         (* requests.post: connection error, timeout *)
| KeyError (key : str)
| IndexError
| TypeError
| AttributeError
| ValueError
| OverflowError
| LibraryError.            (* any other exception out of library code *)

Inductive outcome (A : Type) : Type :=
| Ok (a : A)               (* the call returns [a] *)
| Raise (e : exn)          (* the call raises [e] *)
| OutOfModel.              (* the call goes on with a value not represented *)

Arguments Ok {A} a.
Arguments Raise {A} e.
Arguments OutOfModel {A}.

Definition bind {A B : Type} (m : outcome A) (k : A -> outcome B) : outcome B :=
  match m with
  | Ok a => k a
  | Raise e => Raise e
  | OutOfModel => OutOfModel
  end.

Declare Scope outcome_scope.
Delimit Scope outcome_scope with outcome.
Notation "x <- m ;; k" := (bind m (fun x => k))
  (at level 61, m at next level, right associativity) : outcome_scope.
Open Scope outcome_scope.

Definition returns {A : Type} (m : outcome A) : Prop := exists a, m = Ok a.

Definition raises {A : Type} (m : outcome A) : Prop := exists e, m = Raise e.

Definition raisesb {A : Type} (m : outcome A) : bool :=
  match m with Raise _ => true | _ => false end.

(** ** JSON values, as Python objects *)

(** What [json.loads] builds: [None], [bool], [int], [float], [str], [list]
    and [dict].  A float keeps the text of its literal; an object keeps its
    members in document order, duplicates included. *)
Inductive json : Type :=
| JNull
| JBool (b : bool)
| JInt (z : Z)
| JFloat (literal : str)
| JStr (s : str)
| JArr (items : list json)
| JObj (members : list (str * json)).

(** What [sum] gives: an [int], or a [float], kept as the numbers added
    to get it, in the order [sum] adds them. *)
Inductive pynumber : Type :=
| PyInt (z : Z)
| PyFloat (addends : list json).

Module PyObject.

(** [d[k]] in the dict built from [members]: of two members with the same
    key the later one wins. *)
Fixpoint dict_lookup (members : list (str * json)) (k : str) : option json :=
  match members with
  | [] => None
  | (k', v) :: rest =>
      match dict_lookup rest k with
      | Some v' => Some v'
      | None => if str_eqb k' k then Some v else None
      end
  end.

(** The keys of that dict, in order of first insertion. *)
Fixpoint dict_keys_from (seen : list str) (members : list (str * json)) : list str :=
  match members with
  | [] => []
  | (k, _) :: rest =>
      if existsb (str_eqb k) seen then dict_keys_from seen rest
      else k :: dict_keys_from (k :: seen) rest
  end.

Definition dict_keys (members : list (str * json)) : list str :=
  dict_keys_from [] members.

(** [v[k]] for a string [k]. *)
Definition subscript (v : json) (k : str) : outcome json :=
  match v with
  | JObj members =>
      match dict_lookup members k with
      | Some x => Ok x
      | None => Raise (KeyError k)
      end
  | _ => Raise TypeError
  end.

(** [v[0]] *)
Definition subscript0 (v : json) : outcome json :=
  match v with
  | JArr (x :: _) => Ok x
  | JArr [] => Raise IndexError
  | JStr (c :: _) => Ok (JStr [c])
  | JStr [] => Raise IndexError
  | JObj _ => Raise (KeyError (py "0"))
  | _ => Raise TypeError
  end.

(** [k in v] for a string [k]. *)
Definition contains_key (k : str) (v : json) : outcome bool :=
  match v with
  | JObj members =>
      Ok (match dict_lookup members k with Some _ => true | None => false end)
  | JArr items =>
      Ok (existsb (fun x => match x with JStr s => str_eqb s k | _ => false end) items)
  | JStr s => Ok (contains k s)
  | _ => Raise TypeError
  end.

(** [bool(v)]; the truth value of a float is not represented. *)
Definition truthy (v : json) : outcome bool :=
  match v with
  | JNull => Ok false
  | JBool b => Ok b
  | JInt z => Ok (negb (z =? 0))
  | JFloat _ => OutOfModel
  | JStr s => Ok (match s with [] => false | _ => true end)
  | JArr l => Ok (match l with [] => false | _ => true end)
  | JObj l => Ok (match l with [] => false | _ => true end)
  end.

(** [v.get(k, default)] *)
Definition get (v : json) (k : str) (default : json) : outcome json :=
  match v with
  | JObj members =>
      Ok (match dict_lookup members k with Some x => x | None => default end)
  | _ => Raise AttributeError
  end.

(** The items [for x in v] goes through. *)
Definition iter (v : json) : outcome (list json) :=
  match v with
  | JArr items => Ok items
  | JStr s => Ok (map (fun c => JStr [c]) s)
  | JObj members => Ok (map JStr (dict_keys members))
  | _ => Raise TypeError
  end.

(** Converting an [int] to a [float] raises [OverflowError] from
    [2**1024 - 2**970] on, the first integer that rounds beyond the largest
    double. *)
Definition float_overflow (z : Z) : bool :=
  2 ^ 1024 - 2 ^ 970 <=? Z.abs z.

(** The accumulator of [sum]: an [int], or a [float]; for a float only
    the fact is kept, which is what decides the exceptions. *)
Inductive accumulator : Type :=
| AccInt (z : Z)
| AccFloat.

(** [acc + v] *)
Definition add (acc : accumulator) (v : json) : outcome accumulator :=
  match acc, v with
  | AccInt a, JInt z => Ok (AccInt (a + z))
  | AccInt a, JBool b => Ok (AccInt (a + (if b then 1 else 0)))
  | AccInt a, JFloat _ => if float_overflow a then Raise OverflowError else Ok AccFloat
  | AccFloat, JInt z => if float_overflow z then Raise OverflowError else Ok AccFloat
  | AccFloat, JBool _ => Ok AccFloat
  | AccFloat, JFloat _ => Ok AccFloat
  | _, _ => Raise TypeError
  end.

Fixpoint sum_from (acc : accumulator) (vs : list json) : outcome accumulator :=
  match vs with
  | [] => Ok acc
  | v :: rest => acc' <- add acc v ;; sum_from acc' rest
  end.

(** [sum(vs)]: starts from the integer [0] and adds from left to right. *)
Definition sum (vs : list json) : outcome pynumber :=
  acc <- sum_from (AccInt 0) vs ;;
  Ok (match acc with
      | AccInt z => PyInt z
      | AccFloat => PyFloat vs
      end).

(** [f"{v}"] for an optional string: [None] prints as [None]. *)
Definition format_optional (v : option str) : str :=
  match v with
  | Some s => s
  | None => py "None"
  end.

End PyObject.

(** ** A decoder for JSON text

    [json.loads] as the service calls it: default options, so the grammar
    of RFC 8259 extended with [NaN], [Infinity] and [-Infinity], control
    characters refused inside strings, nothing but whitespace allowed
    after the value, and the interpreter's limit on the number of digits of
    an integer literal. *)

Module Json.

Definition quote : ascii := chr 34.
Definition backslash : ascii := chr 92.

(** The whitespace of the JSON grammar: space, TAB, LF, CR. *)
Definition is_ws (c : ascii) : bool :=
  let n := code c in ((n =? 32) || (n =? 9) || (n =? 10) || (n =? 13))%N.

Fixpoint skip_ws (s : str) : str :=
  match s with
  | c :: s' => if is_ws c then skip_ws s' else s
  | [] => []
  end.

Definition hex_value (c : ascii) : option N :=
  let n := code c in
  (if (48 <=? n) && (n <=? 57) then Some (n - 48)
   else if (65 <=? n) && (n <=? 70) then Some (n - 55)
   else if (97 <=? n) && (n <=? 102) then Some (n - 87)
   else None)%N.

Definition hex4 (a b c d : ascii) : option N :=
  match hex_value a, hex_value b, hex_value c, hex_value d with
  | Some x, Some y, Some z, Some w => Some (((x * 16 + y) * 16 + z) * 16 + w)%N
  | _, _, _, _ => None
  end.

(** The character a one-letter escape stands for. *)
Definition escape (c : ascii) : option ascii :=
  let n := code c in
  (if n =? 34 then Some (chr 34)            (* a quote *)
   else if n =? 92 then Some (chr 92)       (* a backslash *)
   else if n =? 47 then Some (chr 47)       (* a slash *)
   else if n =? 98 then Some (chr 8)        (* backspace *)
   else if n =? 102 then Some (chr 12)      (* form feed *)
   else if n =? 110 then Some (chr 10)      (* line feed *)
   else if n =? 114 then Some (chr 13)      (* carriage return *)
   else if n =? 116 then Some (chr 9)       (* tab *)
   else None)%N.

Definition cons_char (c : ascii) (m : outcome (str * str)) : outcome (str * str) :=
  r <- m ;; Ok (c :: fst r, snd r).

(** The rest of a string literal, after its opening quote: the decoded
    characters and the text after the closing quote. *)
Fixpoint scan_string (s : str) : outcome (str * str) :=
  match s with
  | [] => Raise JSONDecodeError
  | c :: s' =>
      if Ascii.eqb c quote then Ok ([], s')
      else if Ascii.eqb c backslash then
        match s' with
        | [] => Raise JSONDecodeError
        | e :: s'' =>
            if Ascii.eqb e "u" then
              match s'' with
              | h1 :: h2 :: h3 :: h4 :: r =>
                  match hex4 h1 h2 h3 h4 with
                  | Some n => if (n <=? 255)%N then cons_char (chr n) (scan_string r)
                              else OutOfModel
                  | None => Raise JSONDecodeError
                  end
              | _ => Raise JSONDecodeError
              end
            else
              match escape e with
              | Some x => cons_char x (scan_string s'')
              | None => Raise JSONDecodeError
              end
        end
      else if (code c <? 32)%N then Raise JSONDecodeError
      else cons_char c (scan_string s')
  end.

(** The longest prefix of decimal digits, and what follows it. *)
Fixpoint span_digits (s : str) : str * str :=
  match s with
  | c :: s' =>
      if is_decimal c then let (ds, r) := span_digits s' in (c :: ds, r)
      else ([], s)
  | [] => ([], [])
  end.

(** The integer part: [0], or a non-zero digit followed by digits. *)
Definition scan_int_part (s : str) : option (str * str) :=
  match s with
  | c :: s' =>
      if Ascii.eqb c "0" then Some ([c], s')
      else if is_decimal c then Some (span_digits s)
      else None
  | [] => None
  end.

(** The fraction [.digits], when there is one. *)
Definition scan_frac (s : str) : str * str :=
  match s with
  | c :: s' =>
      if Ascii.eqb c "." then
        match span_digits s' with
        | ([], _) => ([], s)
        | (ds, r) => (c :: ds, r)
        end
      else ([], s)
  | [] => ([], [])
  end.

(** The exponent [e], [E] with an optional sign and digits, when there is one. *)
Definition scan_exp (s : str) : str * str :=
  match s with
  | c :: s' =>
      if Ascii.eqb c "e" || Ascii.eqb c "E" then
        let (sign, s'') :=
          match s' with
          | d :: t => if Ascii.eqb d "+" || Ascii.eqb d "-" then ([d], t) else ([], s')
          | [] => ([], s')
          end in
        match span_digits s'' with
        | ([], _) => ([], s)
        | (ds, r) => (c :: sign ++ ds, r)
        end
      else ([], s)
  | [] => ([], [])
  end.

(** A number: an [int] when it has neither fraction nor exponent, a
    [float] otherwise.  An [int] of more than [max_str_digits] digits
    makes the decoder raise [ValueError]. *)
Definition scan_number (s : str) : outcome (json * str) :=
  let (sign, s1) :=
    match s with
    | c :: t => if Ascii.eqb c "-" then ([c], t) else ([], s)
    | [] => ([], s)
    end in
  match scan_int_part s1 with
  | None => Raise JSONDecodeError
  | Some (ds, s2) =>
      let (frac, s3) := scan_frac s2 in
      let (ex, s4) := scan_exp s3 in
      match frac, ex with
      | [], [] =>
          if (length ds <=? max_str_digits)%nat
          then Ok (JInt (match sign with [] => decimal_value ds | _ => - decimal_value ds end), s4)
          else Raise ValueError
      | _, _ => Ok (JFloat (sign ++ ds ++ frac ++ ex), s4)
      end
  end.

(** A fixed word at the head of the text. *)
Definition keyword (w : string) (v : json) (s : str) : outcome (json * str) :=
  if startswith (py w) s then Ok (v, skipn (String.length w) s)
  else Raise JSONDecodeError.

Fixpoint parse_value (fuel : nat) (s : str) : outcome (json * str) :=
  match fuel with
  | O => OutOfModel
  | S f =>
      match s with
      | [] => Raise JSONDecodeError
      | c :: r =>
          if Ascii.eqb c quote then
            x <- scan_string r ;; Ok (JStr (fst x), snd x)
          else if Ascii.eqb c "{" then
            match skip_ws r with
            | d :: r' =>
                if Ascii.eqb d "}" then Ok (JObj [], r')
                else x <- parse_members f (d :: r') ;; Ok (JObj (fst x), snd x)
            | [] => Raise JSONDecodeError
            end
          else if Ascii.eqb c "[" then
            match skip_ws r with
            | d :: r' =>
                if Ascii.eqb d "]" then Ok (JArr [], r')
                else x <- parse_items f (d :: r') ;; Ok (JArr (fst x), snd x)
            | [] => Raise JSONDecodeError
            end
          else if Ascii.eqb c "n" then keyword "null" JNull s
          else if Ascii.eqb c "t" then keyword "true" (JBool true) s
          else if Ascii.eqb c "f" then keyword "false" (JBool false) s
          else if Ascii.eqb c "N" then keyword "NaN" (JFloat (py "NaN")) s
          else if Ascii.eqb c "I" then keyword "Infinity" (JFloat (py "Infinity")) s
          else if startswith (py "-Infinity") s
               then keyword "-Infinity" (JFloat (py "-Infinity")) s
          else scan_number s
      end
  end

(** The members of an object, from its first key to the closing brace. *)
with parse_members (fuel : nat) (s : str) : outcome (list (str * json) * str) :=
  match fuel with
  | O => OutOfModel
  | S f =>
      match s with
      | c :: r =>
          if Ascii.eqb c quote then
            k <- scan_string r ;;
            match skip_ws (snd k) with
            | colon :: r1 =>
                if Ascii.eqb colon ":" then
                  v <- parse_value f (skip_ws r1) ;;
                  match skip_ws (snd v) with
                  | d :: r2 =>
                      if Ascii.eqb d "," then
                        x <- parse_members f (skip_ws r2) ;;
                        Ok ((fst k, fst v) :: fst x, snd x)
                      else if Ascii.eqb d "}" then Ok ([(fst k, fst v)], r2)
                      else Raise JSONDecodeError
                  | [] => Raise JSONDecodeError
                  end
                else Raise JSONDecodeError
            | [] => Raise JSONDecodeError
            end
          else Raise JSONDecodeError
      | [] => Raise JSONDecodeError
      end
  end

(** The items of an array, from its first item to the closing bracket. *)
with parse_items (fuel : nat) (s : str) : outcome (list json * str) :=
  match fuel with
  | O => OutOfModel
  | S f =>
      v <- parse_value f s ;;
      match skip_ws (snd v) with
      | d :: r =>
          if Ascii.eqb d "," then
            x <- parse_items f (skip_ws r) ;; Ok (fst v :: fst x, snd x)
          else if Ascii.eqb d "]" then Ok ([fst v], r)
          else Raise JSONDecodeError
      | [] => Raise JSONDecodeError
      end
  end.

(** [json.loads(s)] *)
Definition loads (s : str) : outcome json :=
  x <- parse_value (2 * length s + 2) (skip_ws s) ;;
  match skip_ws (snd x) with
  | [] => Ok (fst x)
  | _ => Raise JSONDecodeError
  end.

(** Text with ['] standing for the double quote, to write documents. *)
Definition text (s : string) : str :=
  map (fun c => if Ascii.eqb c "'" then quote else c) (py s).

End Json.

(** ** The data model *)

(** One entry of the ["tasks"] list.  The interpreter copies [title],
    [description], [estimated_hours] and [priority] from the document as
    they are, so they are JSON values. *)
Record Task : Type := mkTask {
  id : str;
  title : json;
  description : json;
  estimated_hours : json;
  priority : json;
  status : str
}.

(** The dictionary returned by [_parse_ai_response] and by
    [_create_smart_tasks]. *)
Record Breakdown : Type := mkBreakdown {
  reasoning : json;
  tasks : list Task;
  total_estimated_hours : pynumber
}.

(** What [requests.post] gives back: it raises, or it returns a response
    with a status code and a body that [response.json()] decodes or not. *)
Inductive reply : Type :=
| PostRaises (e : exn)
| Response (status_code : Z) (body : outcome json).

(** ** AIService *)

Module AIService.
Import PyObject.

Definition possible_models : list str :=
  [ py "gemini-2.0-flash";
    py "gemini-2.0-flash-001";
    py "gemini-2.0-flash-lite";
    py "gemini-2.0-flash-lite-001";
    py "gemini-pro-latest";
    py "gemini-2.5-flash";
    py "gemini-2.5-pro" ].

Definition base_url : str :=
  py "https://generativelanguage.googleapis.com/v1beta/models".

(** [int(s)] on a token that passed [isdigit]: a token of at most
    [max_str_digits] decimal digits converts; a superscript digit, and a
    longer token, make [int] raise [ValueError]. *)
Definition int (s : str) : outcome Z :=
  if forallb is_decimal s && (length s <=? max_str_digits)%nat
  then Ok (decimal_value s) else Raise ValueError.

(** [[f(x) for x in xs]] *)
Fixpoint comprehension {A B : Type} (f : A -> outcome B) (xs : list A) : outcome (list B) :=
  match xs with
  | [] => Ok []
  | x :: rest => y <- f x ;; ys <- comprehension f rest ;; Ok (y :: ys)
  end.

(** [_parse_timeframe]: convert timeframe to hours. *)
Definition _parse_timeframe (timeframe : option str) : outcome Z :=
  match timeframe with
  | None => Ok 8
  | Some [] => Ok 8
  | Some tf =>
      let timeframe := lower tf in
      numbers <- comprehension int (filter isdigit (split timeframe)) ;;
      let number := match numbers with n :: _ => n | [] => 1 end in
      if contains (py "minute") timeframe then Ok (Z.max 1 (number / 60))
      else if contains (py "hour") timeframe then Ok number
      else if contains (py "day") timeframe then Ok (number * 8)
      else if contains (py "week") timeframe then Ok (number * 40)
      else if contains (py "month") timeframe then Ok (number * 160)
      else Ok 8
  end.

(** [_create_smart_tasks]: the fallback generator. *)
Definition _create_smart_tasks (goal : str) (timeframe : option str) : outcome Breakdown :=
  total_hours <- _parse_timeframe timeframe ;;
  Ok {| reasoning :=
          JStr (py "Smart task breakdown for '" ++ goal ++ py "' (Gemini API unavailable)");
        tasks :=
          [ {| id := py "1";
               title := JStr (py "Research and plan " ++ goal);
               description := JStr (py "Initial research and planning phase");
               estimated_hours := JInt (Z.max 1 (total_hours / 4));
               priority := JStr (py "high");
               status := py "pending" |};
            {| id := py "2";
               title := JStr (py "Practice core skills for " ++ goal);
               description := JStr (py "Hands-on practice and skill development");
               estimated_hours := JInt (Z.max 1 (total_hours / 2));
               priority := JStr (py "medium");
               status := py "pending" |};
            {| id := py "3";
               title := JStr (py "Apply and refine " ++ goal);
               description := JStr (py "Practical application and improvement");
               estimated_hours := JInt (Z.max 1 (total_hours / 4));
               priority := JStr (py "medium");
               status := py "pending" |} ];
        total_estimated_hours := PyInt total_hours |}.

Definition newline : str := [chr 10].

(** A line of the prompt template; ['] stands for the double quote. *)
Definition line (s : string) : str := Json.text s ++ newline.

(** [_build_prompt] *)
Definition _build_prompt (goal : str) (timeframe : option str) : str :=
  line "You are an expert project planner. Break this goal into 3-5 specific, actionable tasks with realistic time estimates."
  ++ newline
  ++ py "GOAL: " ++ goal ++ newline
  ++ match timeframe with
     | Some (c :: tf) => py "TIMEFRAME: " ++ c :: tf
     | _ => py "TIMEFRAME: Flexible"
     end ++ newline
  ++ newline
  ++ line "Return ONLY valid JSON with this exact structure:"
  ++ line "{"
  ++ line "    'reasoning': 'Brief explanation of your approach',"
  ++ line "    'tasks': ["
  ++ line "        {"
  ++ line "            'title': 'Specific, actionable task name',"
  ++ line "            'description': 'Detailed description of what needs to be done', "
  ++ line "            'estimated_hours': 2,"
  ++ line "            'priority': 'high'"
  ++ line "        }"
  ++ line "    ]"
  ++ line "}"
  ++ newline
  ++ line "Requirements:"
  ++ line "- Make tasks practical and sequential"
  ++ line "- Ensure total estimated hours are appropriate for the timeframe"
  ++ line "- Return ONLY the JSON, no other text"
  ++ py "- Use double quotes for JSON properties".

(** The cleaning steps of [_parse_ai_response]: trim, drop one opening
    fence and one closing fence, trim again. *)
Definition clean (content : str) : str :=
  let content := strip content in
  let content :=
    if startswith (py "```json") content then slice_from 7 content
    else if startswith (py "```") content then slice_from 3 content
    else content in
  let content :=
    if endswith (py "```") content then slice_to_minus 3 content
    else content in
  strip content.

(** The loop of [_parse_ai_response] over [enumerate(...)], from index [i]. *)
Fixpoint build_tasks (i : nat) (entries : list json) : outcome (list Task) :=
  match entries with
  | [] => Ok []
  | task_data :: rest =>
      t <- subscript task_data (py "title") ;;
      d <- subscript task_data (py "description") ;;
      h <- subscript task_data (py "estimated_hours") ;;
      p <- subscript task_data (py "priority") ;;
      more <- build_tasks (S i) rest ;;
      Ok ({| id := str_of_nat (i + 1);
             title := t;
             description := d;
             estimated_hours := h;
             priority := p;
             status := py "pending" |} :: more)
  end.

(** The body of the [try] block of [_parse_ai_response], once the text is
    decoded into [data]. *)
Definition assemble (data : json) : outcome Breakdown :=
  listed <- get data (py "tasks") (JArr []) ;;
  entries <- iter listed ;;
  tasks <- build_tasks 0 entries ;;
  total_hours <- sum (map estimated_hours tasks) ;;
  r <- subscript data (py "reasoning") ;;
  Ok {| reasoning := r; tasks := tasks; total_estimated_hours := total_hours |}.

Section Service.

(** [json.loads], [requests.post] (url, payload, timeout) and the value of
    the environment variable [GEMINI_API_KEY]. *)
Variable loads : str -> outcome json.
Variable post : str -> json -> Z -> reply.
Variable api_key : option str.

(** [_parse_ai_response]; the [goal] argument is not used. *)
Definition _parse_ai_response (content : str) (goal : str) : outcome Breakdown :=
  match loads (clean content) with
  | Ok data => assemble data
  | Raise JSONDecodeError => Raise ParseFailure
  | Raise e => Raise e
  | OutOfModel => OutOfModel
  end.

(** The request body of [_try_model]. *)
Definition payload (prompt : str) : json :=
  JObj [ (py "contents",
          JArr [ JObj [ (py "parts", JArr [ JObj [ (py "text", JStr prompt) ] ]) ] ]);
         (py "generationConfig",
          JObj [ (py "temperature", JFloat (py "0.7"));
                 (py "maxOutputTokens", JInt 800);
                 (py "topP", JFloat (py "0.8"));
                 (py "topK", JInt 40) ]) ].

(** The address [_try_model] posts to. *)
Definition api_url_of (model_name : str) : str :=
  base_url ++ py "/" ++ model_name ++ py ":generateContent?key="
  ++ format_optional api_key.

(** [_try_model]: one attempt with one model. *)
Definition _try_model (model_name goal : str) (timeframe : option str) : outcome Breakdown :=
  let api_url := api_url_of model_name in
  let prompt := _build_prompt goal timeframe in
  match post api_url (payload prompt) 30 with
  | PostRaises e => Raise e
  | Response status_code body =>
      if status_code =? 200 then
        result <- body ;;
        present <- contains_key (py "candidates") result ;;
        nonempty <- (if present
                     then c <- subscript result (py "candidates") ;; truthy c
                     else Ok false) ;;
        if nonempty then
          c <- subscript result (py "candidates") ;;
          c0 <- subscript0 c ;;
          c1 <- subscript c0 (py "content") ;;
          c2 <- subscript c1 (py "parts") ;;
          c3 <- subscript0 c2 ;;
          content <- subscript c3 (py "text") ;;
          match content with
          | JStr s => _parse_ai_response s goal
          | _ => Raise AttributeError        (* content.strip() *)
          end
        else Raise NoCandidates
      else Raise (HTTPStatus status_code)
  end.

(** The loop of [break_down_goal] over the models still to try.  Returns
    the models attempted, in order, with the outcome.  A result of
    [_try_model] is a dictionary with three keys, so [if result:] holds. *)
Fixpoint try_models (models : list str) (goal : str) (timeframe : option str)
  : list str * outcome Breakdown :=
  match models with
  | [] => ([], _create_smart_tasks goal timeframe)
  | model_name :: rest =>
      match _try_model model_name goal timeframe with
      | Ok result => ([model_name], Ok result)
      | Raise e =>
          let (attempted, r) := try_models rest goal timeframe in
          (model_name :: attempted, r)
      | OutOfModel => ([model_name], OutOfModel)
      end
  end.

(** [break_down_goal] *)
Definition break_down_goal (goal : str) (timeframe : option str)
  : list str * outcome Breakdown :=
  try_models possible_models goal timeframe.

End Service.

End AIService.

(** ** The vocabulary of the properties *)

Section Vocabulary.
Import AIService PyObject.

(** Text made of whitespace only. *)
Definition blank (w : str) : Prop := Forall (fun c => isspace c = true) w.

(** The closing fence, which is also the bare opening fence. *)
Definition fence : str := py "```".

(** The opening fence with its language tag. *)
Definition tagged_fence : str := py "```json".

Definition backtick : ascii := "`"%char.

(** The tokens of the lowered text that pass [isdigit]. *)
Definition digit_tokens (s : str) : list str := filter isdigit (split (lower s)).

(** A token [int] converts: ['0'..'9'] only, [max_str_digits] at most. *)
Definition converts (t : str) : bool :=
  forallb is_decimal t && (length t <=? max_str_digits)%nat.

(** Every all-digit token of the text is one [int] converts. *)
Definition decimal_tokens (s : str) : Prop :=
  Forall (fun t => converts t = true) (digit_tokens s).

(** The quantity the heuristic multiplies: the first number of the text,
    [1] when it has none. *)
Definition quantity (s : str) : Z :=
  match digit_tokens s with
  | t :: _ => decimal_value t
  | [] => 1
  end.

Definition convertible (timeframe : option str) : Prop :=
  match timeframe with
  | Some s => decimal_tokens s
  | None => True
  end.

Definition nonzero_quantity (timeframe : option str) : Prop :=
  match timeframe with
  | Some s => quantity s <> 0
  | None => True
  end.

(** The hours of a task, when they are an [int] ([bool] is a subclass of
    [int] in Python). *)
Definition int_value (v : json) : option Z :=
  match v with
  | JInt z => Some z
  | JBool b => Some (if b then 1 else 0)
  | _ => None
  end.

Definition total (hs : list Z) : Z := fold_right Z.add 0 hs.

(** A number with a fraction or an exponent, a [float] in Python. *)
Definition is_float (v : json) : bool :=
  match v with
  | JFloat _ => true
  | _ => false
  end.

(** The four fields every task entry must have. *)
Definition required_fields : list str :=
  [ py "title"; py "description"; py "estimated_hours"; py "priority" ].

(** The entries the loop of the interpreter goes through:
    [data.get("tasks", [])]. *)
Definition entries_of (data : json) : outcome (list json) :=
  listed <- get data (py "tasks") (JArr []) ;; iter listed.

(** A task assembled from an entry holds the four fields of that entry. *)
Definition copied (entry : json) (t : Task) : Prop :=
  subscript entry (py "title") = Ok (title t) /\
  subscript entry (py "description") = Ok (description t) /\
  subscript entry (py "estimated_hours") = Ok (estimated_hours t) /\
  subscript entry (py "priority") = Ok (priority t) /\
  status t = py "pending".

(** [r] is what is left of [s] after some of its characters. *)
Definition suffix (r s : str) : Prop := exists p, s = p ++ r.

(** [r] is what is left of [s] after a part that ends with another
    character than a backtick. *)
Definition cut (s r : str) : Prop :=
  exists p b, s = p ++ b :: r /\ b <> backtick.

(** Text whose last character is a decimal digit. *)
Definition ends_with_digit (p : str) : Prop :=
  exists q b, p = q ++ [b] /\ is_decimal b = true.

(** A value [sum] can add: an [int], a [bool] or a [float]. *)
Definition numeric (v : json) : bool :=
  match v with
  | JInt _ | JBool _ | JFloat _ => true
  | _ => false
  end.

(** [result["candidates"][0]["content"]["parts"][0]["text"]] *)
Definition response_text (result : json) : outcome json :=
  c <- subscript result (py "candidates") ;;
  c0 <- subscript0 c ;;
  c1 <- subscript c0 (py "content") ;;
  c2 <- subscript c1 (py "parts") ;;
  c3 <- subscript0 c2 ;;
  subscript c3 (py "text").

(** The identifiers ["1"], ["2"], ... of [n] tasks. *)
Definition ids_from_one (n : nat) : list str :=
  map (fun k => str_of_nat (k + 1)) (seq 0 n).

(** The hours of the tasks of a breakdown, when they are integers. *)
Definition task_hours (r : Breakdown) : list (option Z) :=
  map (fun t => int_value (estimated_hours t)) (tasks r).

End Vocabulary.

(** ** Sample runs *)

Module Samples.
Import AIService.

(** A transport on which every request fails. *)
Definition offline : str -> json -> Z -> reply :=
  fun _ _ _ => PostRaises RequestException.

(** A complete, fenced answer of a model. *)
Definition answer : str :=
  py "```json" ++ newline
  ++ Json.text "{'reasoning': 'Two steps', 'tasks': [{'title': 'Read', 'description': 'Read the guide', 'estimated_hours': 2, 'priority': 'high'}, {'title': 'Write', 'description': 'Write the notes', 'estimated_hours': 3, 'priority': 'low'}], 'total_estimated_hours': 99}"
  ++ newline ++ py "```".

(** The body of a response that carries [text]. *)
Definition body_with (text : str) : json :=
  JObj [ (py "candidates",
          JArr [ JObj [ (py "content",
                         JObj [ (py "parts", JArr [ JObj [ (py "text", JStr text) ] ]) ]) ] ]) ].

(** A transport on which the second model alone answers; the others are
    refused with status 404. *)
Definition second_answers : str -> json -> Z -> reply :=
  fun url _ _ =>
    if str_eqb url (api_url_of (Some (py "k")) (py "gemini-2.0-flash-001"))
    then Response 200 (Ok (body_with answer))
    else Response 404 (Raise LibraryError).

(** The same answer without its fences. *)
Definition plain_answer : str :=
  Json.text "{'reasoning': 'Two steps', 'tasks': [{'title': 'Read', 'description': 'Read the guide', 'estimated_hours': 2, 'priority': 'high'}, {'title': 'Write', 'description': 'Write the notes', 'estimated_hours': 3, 'priority': 'low'}], 'total_estimated_hours': 99}".

(** The same answer without the total it supplies. *)
Definition answer_without_total : str :=
  Json.text "{'reasoning': 'Two steps', 'tasks': [{'title': 'Read', 'description': 'Read the guide', 'estimated_hours': 2, 'priority': 'high'}, {'title': 'Write', 'description': 'Write the notes', 'estimated_hours': 3, 'priority': 'low'}]}".

(** The two entries of the answer. *)
Definition answer_entries : list json :=
  [ JObj [ (py "title", JStr (py "Read"));
           (py "description", JStr (py "Read the guide"));
           (py "estimated_hours", JInt 2);
           (py "priority", JStr (py "high")) ];
    JObj [ (py "title", JStr (py "Write"));
           (py "description", JStr (py "Write the notes"));
           (py "estimated_hours", JInt 3);
           (py "priority", JStr (py "low")) ] ].

(** The answer, decoded. *)
Definition answer_document : json :=
  JObj ([ (py "reasoning", JStr (py "Two steps")); (py "tasks", JArr answer_entries) ]
        ++ (py "total_estimated_hours", JInt 99) :: []).

(** The breakdown the interpreter returns for the answer. *)
Definition answer_breakdown : Breakdown :=
  {| reasoning := JStr (py "Two steps");
     tasks :=
       [ {| id := py "1";
            title := JStr (py "Read");
            description := JStr (py "Read the guide");
            estimated_hours := JInt 2;
            priority := JStr (py "high");
            status := py "pending" |};
         {| id := py "2";
            title := JStr (py "Write");
            description := JStr (py "Write the notes");
            estimated_hours := JInt 3;
            priority := JStr (py "low");
            status := py "pending" |} ];
     total_estimated_hours := PyInt 5 |}.

(** An answer with no tasks at all. *)
Definition answer_without_tasks : str := Json.text "{'reasoning': 'Nothing to do'}".

(** An answer whose task has a priority outside high, medium and low. *)
Definition answer_urgent : str :=
  Json.text "{'reasoning': 'One step', 'tasks': [{'title': 'Read', 'description': 'Read the guide', 'estimated_hours': 2, 'priority': 'urgent'}]}".

(** An answer whose task has no priority. *)
Definition answer_without_priority : str :=
  Json.text "{'reasoning': 'One step', 'tasks': [{'title': 'Read', 'description': 'Read the guide', 'estimated_hours': 2}]}".

(** An answer without reasoning. *)
Definition answer_without_reasoning : str :=
  Json.text "{'tasks': [{'title': 'Read', 'description': 'Read the guide', 'estimated_hours': 2, 'priority': 'high'}]}".

(** An answer whose task takes two hours and a half. *)
Definition answer_half_hours : str :=
  Json.text "{'reasoning': 'One step', 'tasks': [{'title': 'Read', 'description': 'Read the guide', 'estimated_hours': 2.5, 'priority': 'high'}]}".

(** An answer whose task gives its hours as text. *)
Definition answer_text_hours : str :=
  Json.text "{'reasoning': 'One step', 'tasks': [{'title': 'Read', 'description': 'Read the guide', 'estimated_hours': '2', 'priority': 'high'}]}".

(** An answer whose tasks are an empty string, not a list. *)
Definition answer_tasks_empty_string : str :=
  Json.text "{'reasoning': 'Nothing to do', 'tasks': ''}".

(** An answer whose task has a member the interpreter does not read. *)
Definition answer_with_owner : str :=
  Json.text "{'reasoning': 'Two steps', 'tasks': [{'title': 'Read', 'description': 'Read the guide', 'owner': 'me', 'estimated_hours': 2, 'priority': 'high'}, {'title': 'Write', 'description': 'Write the notes', 'estimated_hours': 3, 'priority': 'low'}], 'total_estimated_hours': 99}".

(** A transport that answers every request with status 503. *)
Definition unavailable : str -> json -> Z -> reply :=
  fun _ _ _ => Response 503 (Ok (body_with answer)).

(** A transport that answers every request with an empty list of
    candidates. *)
Definition silent : str -> json -> Z -> reply :=
  fun _ _ _ => Response 200 (Ok (JObj [ (py "candidates", JArr []) ])).

End Samples.

(** * Properties *)

Unset Implicit Arguments.

(** ** Facts about text *)

Section TextFacts.

Lemma lstrip_blank_app (w s : str) : blank w -> lstrip (w ++ s) = lstrip s.
Proof.
  induction 1 as [| c w Hc _ IH]; simpl; [reflexivity |].
  now rewrite Hc.
Qed.

Lemma lstrip_blank (w : str) : blank w -> lstrip w = [].
Proof.
  intros H. rewrite <- (app_nil_r w). now rewrite lstrip_blank_app.
Qed.

Lemma blank_rev (w : str) : blank w -> blank (rev w).
Proof. unfold blank. apply Forall_rev. Qed.

Lemma rstrip_app_blank (s w : str) : blank w -> rstrip (s ++ w) = rstrip s.
Proof.
  intros H. unfold rstrip. rewrite rev_app_distr.
  now rewrite lstrip_blank_app by now apply blank_rev.
Qed.

(** [lstrip] returns the empty text or a text whose head is not a space. *)
Lemma lstrip_head (s : str) :
  lstrip s = [] \/ exists c t, lstrip s = c :: t /\ isspace c = false.
Proof.
  induction s as [| c s IH]; simpl; [now left |].
  destruct (isspace c) eqn:E; [exact IH |].
  right. now exists c, s.
Qed.

Lemma lstrip_fixed (c : ascii) (t : str) : isspace c = false -> lstrip (c :: t) = c :: t.
Proof. intros H. simpl. now rewrite H. Qed.

Lemma lstrip_app_keep (s w : str) : lstrip s <> [] -> lstrip (s ++ w) = lstrip s ++ w.
Proof.
  induction s as [| c s IH]; simpl; [congruence |].
  destruct (isspace c); [exact IH | reflexivity].
Qed.

(** A last character that is not a space survives [lstrip]. *)
Lemma lstrip_keeps_last (v : str) (c : ascii) :
  isspace c = false -> exists u, lstrip (v ++ [c]) = u ++ [c].
Proof.
  intros Hc. induction v as [| a v IH]; simpl.
  - rewrite Hc. now exists [].
  - destruct (isspace a); [exact IH |]. now exists (a :: v).
Qed.

Lemma rstrip_fixed_last (v : str) (c : ascii) :
  isspace c = false -> rstrip (v ++ [c]) = v ++ [c].
Proof.
  intros Hc. unfold rstrip. rewrite rev_app_distr. simpl.
  rewrite Hc. simpl. now rewrite rev_involutive.
Qed.

(** [rstrip] keeps a head that is not a space. *)
Lemma rstrip_keeps_head (c : ascii) (t : str) :
  isspace c = false -> exists u, rstrip (c :: t) = c :: u.
Proof.
  intros Hc. unfold rstrip. simpl.
  destruct (lstrip_keeps_last (rev t) c Hc) as [u Hu].
  rewrite Hu, rev_app_distr. simpl. now exists (rev u).
Qed.

Lemma rstrip_head (s : str) :
  rstrip s = [] \/ exists v c, rstrip s = v ++ [c] /\ isspace c = false.
Proof.
  unfold rstrip. destruct (lstrip_head (rev s)) as [E | (c & t & E & Hc)]; rewrite E.
  - now left.
  - right. exists (rev t), c. now split.
Qed.

Lemma lstrip_strip (s : str) : lstrip (strip s) = strip s.
Proof.
  unfold strip. destruct (lstrip_head s) as [E | (c & t & E & Hc)]; rewrite E.
  - reflexivity.
  - destruct (rstrip_keeps_head c t Hc) as [u Hu]. rewrite Hu. now apply lstrip_fixed.
Qed.

Lemma rstrip_rstrip (s : str) : rstrip (rstrip s) = rstrip s.
Proof.
  destruct (rstrip_head s) as [E | (v & c & E & Hc)]; rewrite E.
  - reflexivity.
  - now apply rstrip_fixed_last.
Qed.

(** Trimming twice is trimming once. *)
Lemma strip_strip (s : str) : strip (strip s) = strip s.
Proof.
  unfold strip at 1. rewrite lstrip_strip. unfold strip. apply rstrip_rstrip.
Qed.

(** Blank text around [d] does not change what trimming leaves. *)
Lemma strip_padded (w1 d w2 : str) :
  blank w1 -> blank w2 -> strip (w1 ++ d ++ w2) = strip d.
Proof.
  intros H1 H2. unfold strip. rewrite lstrip_blank_app by assumption.
  destruct (lstrip d) eqn:E.
  - assert (Hd : blank d).
    { clear -E. induction d as [| c d IH]; [constructor |].
      simpl in E. destruct (isspace c) eqn:Hc; [| discriminate].
      constructor; auto. now apply IH. }
    rewrite lstrip_blank_app by assumption. now rewrite lstrip_blank.
  - rewrite lstrip_app_keep by congruence. rewrite E. now apply rstrip_app_blank.
Qed.

Lemma startswith_app (p s : str) : startswith p (p ++ s) = true.
Proof.
  induction p as [| a p IH]; simpl; [reflexivity |].
  now rewrite Ascii.eqb_refl.
Qed.

Lemma startswith_prefix (p q s : str) :
  startswith (p ++ q) s = true -> startswith p s = true.
Proof.
  revert s. induction p as [| a p IH]; intros s; simpl; [reflexivity |].
  destruct s as [| b s]; [discriminate |].
  intros H. apply andb_true_iff in H as [H1 H2].
  rewrite H1. simpl. now apply IH.
Qed.

(** A match of [p] on [a ++ b] lies within [a], unless [a] is shorter
    than [p]; the rest of [p] then matches on [b]. *)
Lemma startswith_split (p a b : str) :
  startswith p (a ++ b) = true ->
  startswith p a = true \/
  (length a < length p)%nat /\ startswith (skipn (length a) p) b = true.
Proof.
  revert a. induction p as [| x p IH]; intros a H; simpl; [now left |].
  destruct a as [| y a]; simpl in *.
  - right. split; [lia | exact H].
  - apply andb_true_iff in H as [H1 H2]. rewrite H1. simpl.
    destruct (IH a H2) as [L | [L R]]; [now left |].
    right. split; [lia | exact R].
Qed.

Lemma endswith_app (a p : str) : endswith p (a ++ p) = true.
Proof. unfold endswith. rewrite rev_app_distr. apply startswith_app. Qed.

Lemma slice_to_minus_app (a p : str) : slice_to_minus (length p) (a ++ p) = a.
Proof.
  unfold slice_to_minus. rewrite length_app.
  replace (length a + length p - length p)%nat with (length a + 0)%nat by lia.
  rewrite firstn_app_2. simpl. apply app_nil_r.
Qed.

End TextFacts.

(** ** The cleaning steps of the interpreter *)

Section Cleaning.
Import AIService.

Lemma tagged_fence_eq : tagged_fence = fence ++ py "json".
Proof. reflexivity. Qed.

Lemma fence_last : fence = [backtick; backtick] ++ [backtick].
Proof. reflexivity. Qed.

(** A text with no fence of its own is only trimmed. *)
Lemma clean_unfenced (d : str) :
  startswith fence (strip d) = false ->
  endswith fence (strip d) = false ->
  clean d = strip d.
Proof.
  intros Hs He. unfold clean.
  assert (Ht : startswith (py "```json") (strip d) = false).
  { destruct (startswith (py "```json") (strip d)) eqn:E; [| reflexivity].
    change (py "```json") with (fence ++ py "json") in E.
    apply startswith_prefix in E. congruence. }
  rewrite Ht. fold fence. rewrite Hs, He. apply strip_strip.
Qed.

(** A pattern whose head is neither a space nor a backtick does not match
    a text that begins with one. *)
Lemma startswith_other_head (x : ascii) (p b : str) :
  isspace x = false -> x <> backtick ->
  match b with [] => True | c :: _ => isspace c = true \/ c = backtick end ->
  startswith (x :: p) b = false.
Proof.
  intros Hx Hq Hb. destruct b as [| c b]; [reflexivity |].
  change (Ascii.eqb x c && startswith p b = false)%bool.
  destruct (Ascii.eqb_spec x c) as [<- | _]; [| reflexivity].
  destruct Hb as [Hb | Hb]; congruence.
Qed.

(** What is left of the tag after [k] letters matches neither a space
    nor a backtick. *)
Lemma tag_rest_no_match (k : nat) (b : str) :
  (k < 4)%nat ->
  match b with [] => True | c :: _ => isspace c = true \/ c = backtick end ->
  startswith (skipn k (py "json")) b = false.
Proof.
  intros Hk Hb.
  destruct k as [| [| [| [| k]]]]; try lia;
    match goal with
    | |- startswith ?p b = false =>
        let q := eval cbv in p in change p with q
    end;
    apply startswith_other_head; auto; discriminate.
Qed.

(** A block opened by a bare fence does not read as opened by the tagged
    one, unless [json] is what comes right after the fence. *)
Lemma bare_fence_not_tagged (w1 d w2 : str) :
  blank w2 ->
  startswith (py "json") (w1 ++ d) = false ->
  startswith tagged_fence (fence ++ w1 ++ d ++ w2 ++ fence) = false.
Proof.
  intros H2 Hj.
  change (startswith (py "json") (w1 ++ d ++ w2 ++ fence) = false).
  destruct (startswith (py "json") (w1 ++ d ++ w2 ++ fence)) eqn:E; [| reflexivity].
  rewrite app_assoc in E.
  apply startswith_split in E as [E | [L E]]; [congruence |].
  rewrite tag_rest_no_match in E; [discriminate | exact L |].
  destruct H2 as [| c w2 Hc _]; simpl; [now right | now left].
Qed.

(** Cleaning a fenced block gives back the trimmed content. *)
Lemma clean_fenced (opening w1 d w2 : str) :
  opening = tagged_fence \/ opening = fence ->
  blank w1 -> blank w2 ->
  (opening = fence -> startswith (py "json") (w1 ++ d) = false) ->
  clean (opening ++ w1 ++ d ++ w2 ++ fence) = strip d.
Proof.
  intros Hop H1 H2 Hj.
  set (rest := w1 ++ d ++ w2).
  assert (Hx : strip (opening ++ w1 ++ d ++ w2 ++ fence) = opening ++ rest ++ fence).
  { replace (opening ++ w1 ++ d ++ w2 ++ fence) with (opening ++ rest ++ fence)
      by (unfold rest; now rewrite <- !app_assoc).
    unfold strip.
    assert (Hl : lstrip (opening ++ rest ++ fence) = opening ++ rest ++ fence)
      by (destruct Hop as [-> | ->]; reflexivity).
    rewrite Hl, fence_last, !app_assoc.
    now apply rstrip_fixed_last. }
  assert (Hend : forall a, endswith (py "```") (a ++ fence) = true)
    by (intros a; apply endswith_app).
  assert (Hcut : forall a, slice_to_minus 3 (a ++ fence) = a)
    by (intros a; apply (slice_to_minus_app a fence)).
  unfold clean. rewrite Hx.
  destruct Hop as [-> | ->].
  - change (startswith (py "```json") (tagged_fence ++ rest ++ fence)) with true.
    change (slice_from 7 (tagged_fence ++ rest ++ fence)) with (rest ++ fence).
    cbv iota. rewrite Hend, Hcut. now apply strip_padded.
  - fold tagged_fence.
    replace (fence ++ rest ++ fence) with (fence ++ w1 ++ d ++ w2 ++ fence)
      by (unfold rest; now rewrite <- !app_assoc).
    rewrite bare_fence_not_tagged by auto.
    replace (fence ++ w1 ++ d ++ w2 ++ fence) with (fence ++ rest ++ fence)
      by (unfold rest; now rewrite <- !app_assoc).
    change (startswith (py "```") (fence ++ rest ++ fence)) with true.
    change (slice_from 3 (fence ++ rest ++ fence)) with (rest ++ fence).
    cbv iota. rewrite Hend, Hcut. now apply strip_padded.
Qed.

End Cleaning.

(** ** The timeframe heuristic *)

Section Timeframe.
Import AIService.

Lemma is_decimal_code (c : ascii) :
  is_decimal c = true -> 0 <= Z.of_N (code c) - 48 <= 9.
Proof.
  unfold is_decimal. intros H. apply andb_true_iff in H as [H1 H2].
  apply N.leb_le in H1, H2. lia.
Qed.

Lemma decimal_fold_nonneg (s : str) (acc : Z) :
  0 <= acc -> forallb is_decimal s = true ->
  0 <= fold_left (fun a c => 10 * a + (Z.of_N (code c) - 48)) s acc.
Proof.
  revert acc. induction s as [| c s IH]; intros acc Hacc H; cbn [fold_left]; [exact Hacc |].
  cbn [forallb] in H. apply andb_true_iff in H as [Hc Hs].
  apply IH; [| exact Hs]. pose proof (is_decimal_code c Hc). lia.
Qed.

Lemma decimal_value_nonneg (s : str) :
  forallb is_decimal s = true -> 0 <= decimal_value s.
Proof. apply decimal_fold_nonneg. lia. Qed.

(** The list comprehension of [_parse_timeframe] returns when [int]
    converts every digit token, and then holds the value of each. *)
Lemma int_converts (t : str) :
  int t = if converts t then Ok (decimal_value t) else Raise ValueError.
Proof. reflexivity. Qed.

Lemma converts_decimal (t : str) : converts t = true -> forallb is_decimal t = true.
Proof. unfold converts. intros H. now apply andb_true_iff in H as [H _]. Qed.

Lemma comprehension_int_ok (ts : list str) :
  Forall (fun t => converts t = true) ts ->
  comprehension int ts = Ok (map decimal_value ts).
Proof.
  induction 1 as [| t ts Ht _ IH]; cbn [comprehension map]; [reflexivity |].
  rewrite int_converts, Ht, IH. reflexivity.
Qed.

Lemma comprehension_int_inv (ts : list str) (ns : list Z) :
  comprehension int ts = Ok ns ->
  Forall (fun t => converts t = true) ts /\ ns = map decimal_value ts.
Proof.
  revert ns. induction ts as [| t ts IH]; intros ns H; cbn [comprehension] in H.
  - inversion H. now split.
  - rewrite int_converts in H. destruct (converts t) eqn:Ht; cbn [bind] in H;
      [| discriminate].
    destruct (comprehension int ts) as [ms | |] eqn:E; cbn [bind] in H; try discriminate.
    inversion H; subst. destruct (IH ms eq_refl) as [F ->].
    split; [now constructor | reflexivity].
Qed.

(** What [_parse_timeframe] computes on a text whose numbers convert. *)
Lemma parse_timeframe_text (c : ascii) (s : str) :
  decimal_tokens (c :: s) ->
  _parse_timeframe (Some (c :: s)) =
  Ok (if contains (py "minute") (lower (c :: s)) then Z.max 1 (quantity (c :: s) / 60)
      else if contains (py "hour") (lower (c :: s)) then quantity (c :: s)
      else if contains (py "day") (lower (c :: s)) then quantity (c :: s) * 8
      else if contains (py "week") (lower (c :: s)) then quantity (c :: s) * 40
      else if contains (py "month") (lower (c :: s)) then quantity (c :: s) * 160
      else 8).
Proof.
  intros Hd. unfold _parse_timeframe.
  fold (digit_tokens (c :: s)). rewrite (comprehension_int_ok _ Hd).
  unfold bind.
  assert (Hn : match map decimal_value (digit_tokens (c :: s)) with
               | n :: _ => n | [] => 1 end = quantity (c :: s)).
  { unfold quantity. now destruct (digit_tokens (c :: s)). }
  rewrite Hn.
  repeat match goal with |- context [if ?b then _ else _] => destruct b end; reflexivity.
Qed.

Lemma quantity_nonneg (s : str) : decimal_tokens s -> 0 <= quantity s.
Proof.
  unfold decimal_tokens, quantity. intros H.
  destruct (digit_tokens s) as [| t ts]; [lia |].
  inversion H; subst. now apply decimal_value_nonneg, converts_decimal.
Qed.

(** When [_parse_timeframe] returns, the numbers of the text converted. *)
Lemma parse_timeframe_convertible (timeframe : option str) (h : Z) :
  _parse_timeframe timeframe = Ok h -> convertible timeframe.
Proof.
  destruct timeframe as [[| c s] |]; intros H;
    [constructor | | exact I].
  unfold _parse_timeframe in H. fold (digit_tokens (c :: s)) in H.
  destruct (comprehension int (digit_tokens (c :: s))) as [ns | |] eqn:E;
    try discriminate H.
  now apply comprehension_int_inv in E as [F _].
Qed.

(** The budget is never negative, and at least [1] when the quantity is
    not zero. *)
Lemma parse_timeframe_bounds (timeframe : option str) (h : Z) :
  _parse_timeframe timeframe = Ok h ->
  0 <= h /\ (nonzero_quantity timeframe -> 1 <= h).
Proof.
  intros H. pose proof (parse_timeframe_convertible _ _ H) as Hc.
  destruct timeframe as [[| c s] |];
    [inversion H; lia | | inversion H; lia].
  change (decimal_tokens (c :: s)) in Hc. rewrite (parse_timeframe_text c s Hc) in H.
  pose proof (quantity_nonneg _ Hc) as Hq. unfold nonzero_quantity.
  set (q := quantity (c :: s)) in *.
  repeat match type of H with context [if ?b then _ else _] => destruct b end;
    inversion H; subst; (split; [| intros Hz]); lia.
Qed.

Lemma parse_timeframe_returns (timeframe : option str) :
  convertible timeframe -> returns (_parse_timeframe timeframe).
Proof.
  destruct timeframe as [[| c s] |]; intros H;
    [now exists 8 | | now exists 8].
  change (decimal_tokens (c :: s)) in H.
  rewrite (parse_timeframe_text c s H). eexists. reflexivity.
Qed.

End Timeframe.

(** ** The fallback generator *)

Section Fallback.
Import AIService.

(** The fallback returns exactly when the timeframe converts, and then
    its tasks and total are these. *)
Lemma create_smart_tasks_inv (goal : str) (timeframe : option str) (r : Breakdown) :
  _create_smart_tasks goal timeframe = Ok r ->
  exists h,
    _parse_timeframe timeframe = Ok h /\
    map title (tasks r) =
      [ JStr (py "Research and plan " ++ goal);
        JStr (py "Practice core skills for " ++ goal);
        JStr (py "Apply and refine " ++ goal) ] /\
    map estimated_hours (tasks r) =
      [ JInt (Z.max 1 (h / 4)); JInt (Z.max 1 (h / 2)); JInt (Z.max 1 (h / 4)) ] /\
    map priority (tasks r) = [ JStr (py "high"); JStr (py "medium"); JStr (py "medium") ] /\
    reasoning r =
      JStr (py "Smart task breakdown for '" ++ goal ++ py "' (Gemini API unavailable)") /\
    total_estimated_hours r = PyInt h.
Proof.
  unfold _create_smart_tasks. intros H.
  destruct (_parse_timeframe timeframe) as [h | |]; try discriminate H.
  exists h. unfold bind in H. inversion H. repeat split.
Qed.

Lemma create_smart_tasks_returns (goal : str) (timeframe : option str) (h : Z) :
  _parse_timeframe timeframe = Ok h -> returns (_create_smart_tasks goal timeframe).
Proof.
  intros H. unfold _create_smart_tasks. rewrite H. eexists. reflexivity.
Qed.

End Fallback.

(** ** The response interpreter *)

Section Interpreter.
Import AIService PyObject.

Lemma subscript_modelled (v : json) (k : str) : subscript v k <> OutOfModel.
Proof.
  destruct v; simpl; try discriminate.
  destruct (dict_lookup members k); discriminate.
Qed.

Lemma build_tasks_modelled (i : nat) (entries : list json) :
  build_tasks i entries <> OutOfModel.
Proof.
  revert i. induction entries as [| e entries IH]; intros i;
    cbn [build_tasks]; [discriminate |].
  unfold bind.
  destruct (subscript e (py "title")) eqn:Et;
    [| discriminate | now apply subscript_modelled in Et].
  destruct (subscript e (py "description")) eqn:Ed;
    [| discriminate | now apply subscript_modelled in Ed].
  destruct (subscript e (py "estimated_hours")) eqn:Eh;
    [| discriminate | now apply subscript_modelled in Eh].
  destruct (subscript e (py "priority")) eqn:Ep;
    [| discriminate | now apply subscript_modelled in Ep].
  specialize (IH (S i)). destruct (build_tasks (S i) entries); congruence.
Qed.

(** One step of the loop, when it returns. *)
Lemma build_tasks_cons_inv (i : nat) (e : json) (entries : list json) (ts : list Task) :
  build_tasks i (e :: entries) = Ok ts ->
  exists t more,
    ts = t :: more /\ copied e t /\ id t = str_of_nat (i + 1) /\
    build_tasks (S i) entries = Ok more.
Proof.
  cbn [build_tasks]. unfold bind. intros H.
  destruct (subscript e (py "title")) as [t | |] eqn:Et; try discriminate H.
  destruct (subscript e (py "description")) as [d | |] eqn:Ed; try discriminate H.
  destruct (subscript e (py "estimated_hours")) as [h | |] eqn:Eh; try discriminate H.
  destruct (subscript e (py "priority")) as [p | |] eqn:Ep; try discriminate H.
  destruct (build_tasks (S i) entries) as [more | |] eqn:Em; try discriminate H.
  inversion H; subst. eexists _, more. repeat split; assumption.
Qed.

(** The loop builds one task per entry, in order. *)
Lemma build_tasks_inv (i : nat) (entries : list json) (ts : list Task) :
  build_tasks i entries = Ok ts -> Forall2 copied entries ts.
Proof.
  revert i ts. induction entries as [| e entries IH]; intros i ts H.
  - inversion H. constructor.
  - apply build_tasks_cons_inv in H as (t & more & -> & Hc & _ & Hm).
    constructor; [exact Hc | now apply (IH (S i))].
Qed.

(** The identifiers are the positions, counted from [i + 1]. *)
Lemma build_tasks_ids (i : nat) (entries : list json) (ts : list Task) :
  build_tasks i entries = Ok ts ->
  map id ts = map (fun k => str_of_nat (k + 1)) (seq i (length entries)).
Proof.
  revert i ts. induction entries as [| e entries IH]; intros i ts H.
  - inversion H. reflexivity.
  - apply build_tasks_cons_inv in H as (t & more & -> & _ & Hi & Hm).
    cbn [map seq length]. rewrite Hi. f_equal. now apply IH.
Qed.

(** An entry without one of the required fields makes the loop raise. *)
Lemma build_tasks_missing_field (i : nat) (entries : list json) (e : json) (k : str) :
  In e entries -> In k required_fields -> raises (subscript e k) ->
  raises (build_tasks i entries).
Proof.
  intros Hin Hk Hr. revert i.
  induction entries as [| e' entries IH]; intros i; [contradiction |].
  cbn [build_tasks]. unfold bind.
  destruct (subscript e' (py "title")) as [t | x |] eqn:Et;
    [| now exists x | now apply subscript_modelled in Et].
  destruct (subscript e' (py "description")) as [d | x |] eqn:Ed;
    [| now exists x | now apply subscript_modelled in Ed].
  destruct (subscript e' (py "estimated_hours")) as [h | x |] eqn:Eh;
    [| now exists x | now apply subscript_modelled in Eh].
  destruct (subscript e' (py "priority")) as [p | x |] eqn:Ep;
    [| now exists x | now apply subscript_modelled in Ep].
  destruct Hin as [-> | Hin].
  - exfalso. destruct Hr as [x Hx].
    unfold required_fields in Hk. cbn [In] in Hk.
    destruct Hk as [<- | [<- | [<- | [<- | []]]]]; congruence.
  - destruct (IH Hin (S i)) as [x Hx]. rewrite Hx. now exists x.
Qed.

(** [sum] stays a float once it is one. *)
Lemma sum_float_stays (vs : list json) (acc : accumulator) :
  sum_from AccFloat vs = Ok acc -> acc = AccFloat.
Proof.
  induction vs as [| v vs IH]; simpl; intros H; [now inversion H |].
  destruct v; simpl in H; try discriminate H; auto.
  destruct (float_overflow z); simpl in H; [discriminate H | auto].
Qed.

(** An integer total is the sum of integer hours. *)
Lemma sum_from_int (vs : list json) (a t : Z) :
  sum_from (AccInt a) vs = Ok (AccInt t) ->
  exists hs, Forall2 (fun v h => int_value v = Some h) vs hs /\ t = a + total hs.
Proof.
  revert a. induction vs as [| v vs IH]; simpl; intros a H.
  - inversion H. exists []. split; [constructor | simpl; lia].
  - destruct v; simpl in H; try discriminate H.
    + destruct (IH _ H) as (hs & F & ->).
      exists ((if b then 1 else 0) :: hs). split; [now constructor | simpl; lia].
    + destruct (IH _ H) as (hs & F & ->).
      exists (z :: hs). split; [now constructor | simpl; lia].
    + destruct (float_overflow a); simpl in H; [discriminate H |].
      apply sum_float_stays in H. discriminate H.
Qed.

Lemma sum_from_modelled (vs : list json) (acc : accumulator) :
  sum_from acc vs <> OutOfModel.
Proof.
  revert acc. induction vs as [| v vs IH]; intros acc; simpl; [discriminate |].
  destruct (add acc v) as [acc' | |] eqn:E; simpl; try discriminate; [apply IH |].
  destruct acc, v; simpl in E; try discriminate E;
    match type of E with context [if ?b then _ else _] => destruct b; discriminate E end.
Qed.

Lemma sum_modelled (vs : list json) : sum vs <> OutOfModel.
Proof.
  unfold sum. destruct (sum_from (AccInt 0) vs) as [acc | e |] eqn:E; cbn [bind];
    try discriminate. now apply sum_from_modelled in E.
Qed.

(** A sum that returns added numbers only, and is a float exactly when
    it met one. *)
Lemma sum_from_numeric (vs : list json) (acc acc' : accumulator) :
  sum_from acc vs = Ok acc' ->
  Forall (fun v => numeric v = true) vs /\
  (acc' = AccFloat -> acc = AccFloat \/ Exists (fun v => is_float v = true) vs).
Proof.
  revert acc. induction vs as [| v vs IH]; intros acc H; cbn [sum_from] in H.
  - inversion H; subst. split; [constructor | now left].
  - destruct (add acc v) as [a | |] eqn:E; cbn [bind] in H; try discriminate H.
    destruct (IH a H) as [F X]. split.
    + constructor; [| exact F]. destruct acc, v; cbn [add] in E; try discriminate E; reflexivity.
    + intros Hf. destruct (X Hf) as [-> | Hx]; [| right; now constructor 2].
      destruct acc; [| now left]. right.
      destruct v; cbn [add] in E; try discriminate E. now constructor.
Qed.

(** The two results of [sum]: the sum of integers, or a float made from
    numbers of which one at least is a float. *)
Lemma sum_inv (vs : list json) (n : pynumber) :
  sum vs = Ok n ->
  (exists hs, Forall2 (fun v h => int_value v = Some h) vs hs /\ n = PyInt (total hs)) \/
  (n = PyFloat vs /\
   Forall (fun v => numeric v = true) vs /\
   Exists (fun v => is_float v = true) vs).
Proof.
  unfold sum. destruct (sum_from (AccInt 0) vs) as [[t |] | |] eqn:E; cbn [bind];
    try discriminate; intros H; inversion H; subst n.
  - left. apply sum_from_int in E as (hs & F & ->). exists hs. split; [exact F | reflexivity].
  - right. destruct (sum_from_numeric _ _ _ E) as [F X].
    split; [reflexivity |]. split; [exact F |].
    destruct (X eq_refl) as [X' | X']; [discriminate X' | exact X'].
Qed.

(** What holds when the assembly returns. *)
Lemma assemble_inv (data : json) (r : Breakdown) :
  assemble data = Ok r ->
  exists entries,
    entries_of data = Ok entries /\
    build_tasks 0 entries = Ok (tasks r) /\
    sum (map estimated_hours (tasks r)) = Ok (total_estimated_hours r) /\
    subscript data (py "reasoning") = Ok (reasoning r).
Proof.
  unfold assemble, entries_of. intros H.
  destruct (get data (py "tasks") (JArr [])) as [listed | |]; try discriminate H.
  unfold bind in H |- *.
  destruct (iter listed) as [entries | |]; try discriminate H.
  destruct (build_tasks 0 entries) as [ts | |] eqn:Eb; try discriminate H.
  destruct (sum (map estimated_hours ts)) as [t | |] eqn:Es; try discriminate H;
    destruct (subscript data (py "reasoning")) as [x | |] eqn:Er; try discriminate H.
  inversion H; subst. cbn [tasks total_estimated_hours reasoning].
  exists entries. repeat split; assumption.
Qed.

(** The assembly raises when the document has no reasoning. *)
Lemma assemble_no_reasoning (data : json) :
  raises (subscript data (py "reasoning")) -> raises (assemble data).
Proof.
  intros [x Hx]. unfold assemble.
  destruct (get data (py "tasks") (JArr [])) as [listed | y |] eqn:Eg;
    [| now exists y |].
  - unfold bind.
    destruct (iter listed) as [entries | y |] eqn:Ei; [| now exists y |].
    + destruct (build_tasks 0 entries) as [ts | y |] eqn:Eb; [| now exists y |].
      * destruct (sum (map estimated_hours ts)) as [acc | y |] eqn:Es; [| now exists y |].
        -- rewrite Hx. now exists x.
        -- now apply sum_modelled in Es.
      * now apply build_tasks_modelled in Eb.
    + destruct listed; discriminate Ei.
  - destruct data; discriminate Eg.
Qed.

(** The assembly raises when an entry lacks a required field. *)
Lemma assemble_missing_field (data : json) (entries : list json) (e : json) (k : str) :
  entries_of data = Ok entries ->
  In e entries -> In k required_fields -> raises (subscript e k) ->
  raises (assemble data).
Proof.
  unfold entries_of, assemble. intros He Hin Hk Hr.
  destruct (get data (py "tasks") (JArr [])) as [listed | |]; try discriminate He.
  unfold bind in He |- *. rewrite He.
  destruct (build_tasks_missing_field 0 entries e k Hin Hk Hr) as [x Hx].
  rewrite Hx. now exists x.
Qed.

(** A document that is not an object makes the assembly raise. *)
Lemma assemble_not_object (data : json) :
  (forall members, data <> JObj members) -> raises (assemble data).
Proof.
  intros H. destruct data; try (now exists AttributeError).
  now elim (H members).
Qed.

End Interpreter.

(** ** Documents that differ in a field the interpreter does not read *)

Section UnreadFields.
Import AIService PyObject.

Lemma dict_lookup_other (l1 l2 : list (str * json)) (k k' : str) (v : json) :
  str_eqb k k' = false ->
  dict_lookup (l1 ++ (k, v) :: l2) k' = dict_lookup (l1 ++ l2) k'.
Proof.
  intros Hk. induction l1 as [| [a x] l1 IH]; cbn [app dict_lookup].
  - rewrite Hk. now destruct (dict_lookup l2 k').
  - now rewrite IH.
Qed.

(** A member under a key other than [tasks] and [reasoning] changes
    nothing of what is assembled. *)
Lemma assemble_unread_field (l1 l2 : list (str * json)) (k : str) (v : json) :
  str_eqb k (py "tasks") = false ->
  str_eqb k (py "reasoning") = false ->
  assemble (JObj (l1 ++ (k, v) :: l2)) = assemble (JObj (l1 ++ l2)).
Proof.
  intros Ht Hr. unfold assemble, get, subscript.
  now rewrite !dict_lookup_other by assumption.
Qed.

End UnreadFields.

(** ** The service, for any decoder, transport and key *)

Section Service.
Import AIService PyObject.

Variable loads : str -> outcome json.
Variable post : str -> json -> Z -> reply.
Variable api_key : option str.

Lemma parse_ai_response_inv (content goal : str) (r : Breakdown) :
  _parse_ai_response loads content goal = Ok r ->
  exists data, loads (clean content) = Ok data /\ assemble data = Ok r.
Proof.
  unfold _parse_ai_response. intros H.
  destruct (loads (clean content)) as [data | e |]; try discriminate H.
  - now exists data.
  - destruct e; discriminate H.
Qed.

Lemma parse_ai_response_decoded (content goal : str) (data : json) :
  loads (clean content) = Ok data ->
  _parse_ai_response loads content goal = assemble data.
Proof. unfold _parse_ai_response. now intros ->. Qed.

(** The interpreter reads its input through [clean] only. *)
Lemma parse_ai_response_clean (c1 c2 goal : str) :
  clean c1 = clean c2 ->
  _parse_ai_response loads c1 goal = _parse_ai_response loads c2 goal.
Proof. unfold _parse_ai_response. now intros ->. Qed.

(** When the decoder raises, so does the interpreter. *)
Lemma parse_ai_response_undecoded (content goal : str) :
  raises (loads (clean content)) -> raises (_parse_ai_response loads content goal).
Proof.
  intros [e He]. unfold _parse_ai_response. rewrite He.
  destruct e; eexists; reflexivity.
Qed.

(** Every attempt raising, the loop tries every model and hands over to
    the fallback generator. *)
Lemma try_models_all_fail (models : list str) (goal : str) (timeframe : option str) :
  Forall (fun m => raises (_try_model loads post api_key m goal timeframe)) models ->
  try_models loads post api_key models goal timeframe =
  (models, _create_smart_tasks goal timeframe).
Proof.
  induction 1 as [| m models [e He] _ IH]; cbn [try_models]; [reflexivity |].
  now rewrite He, IH.
Qed.

(** The loop stops at the first attempt that returns. *)
Lemma try_models_first_success
    (failed : list str) (m : str) (later : list str)
    (goal : str) (timeframe : option str) (r : Breakdown) :
  Forall (fun x => raises (_try_model loads post api_key x goal timeframe)) failed ->
  _try_model loads post api_key m goal timeframe = Ok r ->
  try_models loads post api_key (failed ++ m :: later) goal timeframe =
  (failed ++ [m], Ok r).
Proof.
  intros Hf Hm. induction Hf as [| x failed [e He] _ IH]; cbn [app try_models].
  - now rewrite Hm.
  - now rewrite He, IH.
Qed.

(** The models attempted are the first ones of the list, in order. *)
Lemma try_models_prefix (models : list str) (goal : str) (timeframe : option str) :
  exists untried,
    models = fst (try_models loads post api_key models goal timeframe) ++ untried.
Proof.
  induction models as [| m models [untried IH]]; cbn [try_models].
  - now exists [].
  - destruct (_try_model loads post api_key m goal timeframe).
    + now exists models.
    + destruct (try_models loads post api_key models goal timeframe) as [a o].
      exists untried. cbn [fst app] in *. now rewrite <- IH.
    + now exists models.
Qed.

End Service.

Section Fallback_from_the_prober.
Import AIService PyObject Samples.

Variable loads : str -> outcome json.
Variable post : str -> json -> Z -> reply.
Variable api_key : option str.

(** On a timeframe that converts, the fallback returns three tasks of at
    least one hour each, and the budget of the timeframe as the total. *)
Lemma fallback_three_tasks (goal : str) (timeframe : option str) :
  convertible timeframe ->
  exists r h,
    _create_smart_tasks goal timeframe = Ok r /\
    _parse_timeframe timeframe = Ok h /\
    length (tasks r) = 3%nat /\
    Forall (fun t => exists z, estimated_hours t = JInt z /\ 1 <= z) (tasks r) /\
    total_estimated_hours r = PyInt h.
Proof.
  intros Hc. destruct (parse_timeframe_returns timeframe Hc) as [h Hh].
  unfold _create_smart_tasks. rewrite Hh. cbn [bind].
  eexists _, h. repeat split.
  cbn [tasks]. repeat constructor; eexists; (split; [reflexivity | apply Z.le_max_l]).
Qed.

(** Every attempt raising, the prober gives what the fallback gives, be
    it a breakdown or an exception. *)
Lemma prober_falls_back (goal : str) (timeframe : option str) :
  Forall (fun m => raises (_try_model loads post api_key m goal timeframe)) possible_models ->
  break_down_goal loads post api_key goal timeframe =
  (possible_models, _create_smart_tasks goal timeframe).
Proof. apply try_models_all_fail. Qed.

(** The values listed with the timeframe heuristic. *)
Example timeframe_two_weeks : _parse_timeframe (Some (py "2 weeks")) = Ok 80.
Proof. reflexivity. Qed.

Example timeframe_ninety_minutes : _parse_timeframe (Some (py "90 minutes")) = Ok 1.
Proof. reflexivity. Qed.

Example timeframe_absent : _parse_timeframe None = Ok 8.
Proof. reflexivity. Qed.

Example timeframe_forever : _parse_timeframe (Some (py "forever")) = Ok 8.
Proof. reflexivity. Qed.

(** The run from end to end: no model answers, two weeks for the goal. *)
Example learn_spanish_offline :
  exists r,
    break_down_goal loads offline api_key (py "Learn Spanish") (Some (py "2 weeks")) =
    (possible_models, Ok r) /\
    map title (tasks r) =
      [ JStr (py "Research and plan Learn Spanish");
        JStr (py "Practice core skills for Learn Spanish");
        JStr (py "Apply and refine Learn Spanish") ] /\
    map estimated_hours (tasks r) = [JInt 20; JInt 40; JInt 20] /\
    total_estimated_hours r = PyInt 80.
Proof. eexists. repeat split. Qed.

End Fallback_from_the_prober.

Lemma possible_models_distinct : NoDup AIService.possible_models.
Proof.
  unfold AIService.possible_models.
  repeat (constructor; [vm_compute; intuition discriminate |]).
  constructor.
Qed.

(** ** Where a decoded text begins and ends *)

Section DecoderFacts.
Import AIService PyObject Json.

Lemma suffix_refl (s : str) : suffix s s.
Proof. now exists []. Qed.

Lemma suffix_cons (c : ascii) (r s : str) : suffix r s -> suffix r (c :: s).
Proof. intros [p ->]. now exists (c :: p). Qed.

Lemma suffix_trans (a b c : str) : suffix a b -> suffix b c -> suffix a c.
Proof. intros [p ->] [q ->]. exists (q ++ p). now rewrite app_assoc. Qed.

Lemma suffix_skipn (n : nat) (s : str) : suffix (skipn n s) s.
Proof. exists (firstn n s). now rewrite firstn_skipn. Qed.

Lemma skip_ws_suffix (s : str) : suffix (skip_ws s) s.
Proof.
  induction s as [| c s IH]; cbn [skip_ws]; [apply suffix_refl |].
  destruct (is_ws c); [now apply suffix_cons | apply suffix_refl].
Qed.

Lemma cut_suffix (s r : str) : cut s r -> suffix r s.
Proof. intros (p & b & -> & _). exists (p ++ [b]). now rewrite <- app_assoc. Qed.

Lemma cut_within (s' s r : str) : suffix s' s -> cut s' r -> cut s r.
Proof.
  intros [q ->] (p & b & -> & Hb). exists (q ++ p), b.
  split; [now rewrite app_assoc | exact Hb].
Qed.

(** What is read up to a character [b] that is not a backtick. *)
Lemma cut_at (b : ascii) (r s : str) : b <> backtick -> suffix (b :: r) s -> cut s r.
Proof. intros Hb [p ->]. now exists p, b. Qed.

Lemma cons_char_inv (c : ascii) (m : outcome (str * str)) (k r : str) :
  cons_char c m = Ok (k, r) -> exists k', m = Ok (k', r).
Proof.
  unfold cons_char. destruct m as [[k' r'] | |]; cbn [bind fst snd]; intros H;
    try discriminate H.
  inversion H; subst. now exists k'.
Qed.

(** A string literal is read up to its closing quote. *)
Lemma scan_string_cut (n : nat) (s k r : str) :
  (length s <= n)%nat -> scan_string s = Ok (k, r) -> cut s r.
Proof.
  revert s k r. induction n as [| n IH]; intros s k r Hn H.
  - destruct s; [discriminate H | cbn [length] in Hn; lia].
  - destruct s as [| c s]; [discriminate H |]. cbn [scan_string] in H.
    cbn [length] in Hn.
    destruct (Ascii.eqb_spec c quote) as [-> | _].
    + inversion H; subst. apply (cut_at quote); [discriminate | apply suffix_refl].
    + destruct (Ascii.eqb c backslash).
      * destruct s as [| e s]; [discriminate H |]. cbn [length] in Hn.
        destruct (Ascii.eqb e "u").
        -- destruct s as [| h1 [| h2 [| h3 [| h4 t]]]]; try discriminate H.
           cbn [length] in Hn.
           destruct (hex4 h1 h2 h3 h4) as [x |]; [| discriminate H].
           destruct (x <=? 255)%N; [| discriminate H].
           apply cons_char_inv in H as [k' H].
           apply (cut_within t); [| apply (IH t k' r); [lia | exact H]].
           do 6 apply suffix_cons. apply suffix_refl.
        -- destruct (escape e); [| discriminate H].
           apply cons_char_inv in H as [k' H].
           apply (cut_within s); [| apply (IH s k' r); [lia | exact H]].
           do 2 apply suffix_cons. apply suffix_refl.
      * destruct (code c <? 32)%N; [discriminate H |].
        apply cons_char_inv in H as [k' H].
        apply (cut_within s); [| apply (IH s k' r); [lia | exact H]].
        apply suffix_cons. apply suffix_refl.
Qed.

(** Text that ends with a decimal digit. *)
Lemma span_digits_spec (s : str) :
  s = fst (span_digits s) ++ snd (span_digits s) /\
  (fst (span_digits s) = [] \/ ends_with_digit (fst (span_digits s))).
Proof.
  induction s as [| c s [IH1 IH2]]; cbn [span_digits]; [now split; [| left] |].
  destruct (is_decimal c) eqn:Hc; [| now split; [| left]].
  destruct (span_digits s) as [ds r]. cbn [fst snd] in *.
  split; [now rewrite IH1 at 1 |]. right.
  destruct IH2 as [-> | (q & b & -> & Hb)].
  - now exists [], c.
  - now exists (c :: q), b.
Qed.

Lemma ends_with_digit_cut (p r : str) : ends_with_digit p -> cut (p ++ r) r.
Proof.
  intros (q & b & -> & Hb). exists q, b. split; [now rewrite <- app_assoc |].
  intros ->. discriminate Hb.
Qed.

Lemma ends_with_digit_app (p q : str) : ends_with_digit q -> ends_with_digit (p ++ q).
Proof. intros (t & b & -> & Hb). exists (p ++ t), b. now rewrite app_assoc. Qed.

Lemma scan_int_part_spec (s ds r : str) :
  scan_int_part s = Some (ds, r) -> s = ds ++ r /\ ends_with_digit ds.
Proof.
  unfold scan_int_part. destruct s as [| c s]; [discriminate |].
  destruct (Ascii.eqb_spec c "0") as [-> | _].
  - intros H. inversion H; subst. split; [reflexivity | now exists [], "0"%char].
  - destruct (is_decimal c) eqn:Hc; [| discriminate].
    intros H. assert (E : span_digits (c :: s) = (ds, r)) by congruence. clear H.
    destruct (span_digits_spec (c :: s)) as [H1 H2]. rewrite E in H1, H2.
    cbn [fst snd] in H1, H2. split; [exact H1 |].
    destruct H2 as [-> | H2]; [| exact H2].
    cbn [span_digits] in E. rewrite Hc in E.
    destruct (span_digits s); discriminate E.
Qed.

Lemma scan_frac_spec (s : str) :
  s = fst (scan_frac s) ++ snd (scan_frac s) /\
  (fst (scan_frac s) = [] \/ ends_with_digit (fst (scan_frac s))).
Proof.
  unfold scan_frac. destruct s as [| c s]; [now split; [| left] |].
  destruct (Ascii.eqb c "."); [| now split; [| left]].
  destruct (span_digits_spec s) as [H1 H2].
  destruct (span_digits s) as [[| a ds] r]; cbn [fst snd] in *; [now split; [| left] |].
  split; [now rewrite H1 at 1 |]. right.
  destruct H2 as [H2 | H2]; [discriminate H2 |].
  now apply (ends_with_digit_app [c]).
Qed.

Lemma scan_exp_spec (s : str) :
  s = fst (scan_exp s) ++ snd (scan_exp s) /\
  (fst (scan_exp s) = [] \/ ends_with_digit (fst (scan_exp s))).
Proof.
  unfold scan_exp. destruct s as [| c s]; [now split; [| left] |].
  destruct (Ascii.eqb c "e" || Ascii.eqb c "E")%bool; [| now split; [| left]].
  set (signed := match s with
                 | d :: t => if (Ascii.eqb d "+" || Ascii.eqb d "-")%bool
                             then ([d], t) else ([], s)
                 | [] => ([], s)
                 end).
  assert (Hs : s = fst signed ++ snd signed).
  { unfold signed. destruct s as [| d t]; [reflexivity |].
    now destruct (Ascii.eqb d "+" || Ascii.eqb d "-")%bool. }
  destruct signed as [sign s'']. cbn [fst snd] in Hs.
  destruct (span_digits_spec s'') as [H1 H2].
  destruct (span_digits s'') as [[| a ds] r]; cbn [fst snd] in *; [now split; [| left] |].
  split.
  - rewrite Hs, H1. cbn [app]. now rewrite <- app_assoc.
  - right. destruct H2 as [H2 | H2]; [discriminate H2 |].
    apply (ends_with_digit_app [c]). now apply ends_with_digit_app.
Qed.

(** A number is read up to its last digit. *)
Lemma scan_number_cut (s : str) (v : json) (r : str) :
  scan_number s = Ok (v, r) -> cut s r.
Proof.
  unfold scan_number.
  set (signed := match s with
                 | c :: t => if Ascii.eqb c "-" then ([c], t) else ([], s)
                 | [] => ([], s)
                 end).
  assert (Hs : suffix (snd signed) s).
  { unfold signed. destruct s as [| c t]; [apply suffix_refl |].
    destruct (Ascii.eqb c "-"); [apply suffix_cons |]; apply suffix_refl. }
  destruct signed as [sign s1]. cbn [snd] in Hs.
  destruct (scan_int_part s1) as [[ds s2] |] eqn:Ei; [| discriminate].
  apply scan_int_part_spec in Ei as [E1 Hd].
  destruct (scan_frac_spec s2) as [E2 Hf]. destruct (scan_frac s2) as [frac s3].
  destruct (scan_exp_spec s3) as [E3 He]. destruct (scan_exp s3) as [ex s4].
  cbn [fst snd] in *.
  assert (Hc : cut s1 s4).
  { subst s1 s2 s3. rewrite !app_assoc. apply ends_with_digit_cut.
    destruct He as [-> | He]; [| now apply ends_with_digit_app].
    rewrite app_nil_r.
    destruct Hf as [-> | Hf]; [| now apply ends_with_digit_app].
    now rewrite app_nil_r. }
  intros H.
  assert (r = s4)
    by (destruct frac, ex; try (now inversion H);
        destruct (length ds <=? max_str_digits)%nat; now inversion H).
  subst r.
  now apply (cut_within s1).
Qed.

Lemma startswith_skipn (p s : str) :
  startswith p s = true -> s = p ++ skipn (length p) s.
Proof.
  revert s. induction p as [| a p IH]; intros s H; [reflexivity |].
  destruct s as [| b s]; [discriminate H |]. cbn [startswith] in H.
  apply andb_true_iff in H as [H1 H2]. apply Ascii.eqb_eq in H1. subst b.
  cbn [length skipn app]. f_equal. now apply IH.
Qed.

(** A fixed word is read up to its last letter. *)
Lemma keyword_cut (w : string) (q : str) (b : ascii) (v v' : json) (s r : str) :
  py w = q ++ [b] -> String.length w = length (py w) -> b <> backtick ->
  keyword w v s = Ok (v', r) -> cut s r.
Proof.
  intros Hw Hl Hb. unfold keyword.
  destruct (startswith (py w) s) eqn:E; [| discriminate].
  intros H. inversion H; subst v' r. apply startswith_skipn in E.
  rewrite Hl. exists q, b. split; [| exact Hb].
  rewrite E at 1. rewrite Hw. now rewrite <- app_assoc.
Qed.

Lemma bind_inv {A B : Type} (m : outcome A) (k : A -> outcome B) (b : B) :
  bind m k = Ok b -> exists a, m = Ok a /\ k a = Ok b.
Proof. destruct m as [a | |]; cbn [bind]; try discriminate. intros H. now exists a. Qed.

Lemma skip_ws_cons_suffix (s : str) (d : ascii) (r : str) :
  skip_ws s = d :: r -> suffix (d :: r) s.
Proof. intros <-. apply skip_ws_suffix. Qed.

Lemma suffix_tail (c : ascii) (r s : str) : suffix (c :: r) s -> suffix r s.
Proof. intros [p ->]. exists (p ++ [c]). now rewrite <- app_assoc. Qed.

(** Every value, list of members and list of items is read up to a
    character that is not a backtick. *)
Lemma parse_cut (fuel : nat) :
  (forall s v r, parse_value fuel s = Ok (v, r) -> cut s r) /\
  (forall s ms r, parse_members fuel s = Ok (ms, r) -> cut s r) /\
  (forall s l r, parse_items fuel s = Ok (l, r) -> cut s r).
Proof.
  induction fuel as [| f (IHv & IHm & IHi)];
    [split; [| split]; intros; discriminate |].
  split; [| split].
  - intros s v r H. cbn [parse_value] in H.
    destruct s as [| c t]; [discriminate H |].
    destruct (Ascii.eqb c quote).
    { apply bind_inv in H as ([k r'] & Hs & Hk). cbn [fst snd] in Hk.
      inversion Hk; subst. apply (cut_within t); [apply suffix_cons, suffix_refl |].
      now apply (scan_string_cut (length t) t k r). }
    destruct (Ascii.eqb c "{").
    { destruct (skip_ws t) as [| d r'] eqn:Ew; [discriminate H |].
      apply skip_ws_cons_suffix in Ew. apply (suffix_cons c) in Ew.
      destruct (Ascii.eqb_spec d "}") as [-> | _].
      - inversion H; subst. apply (cut_at "}"); [discriminate | exact Ew].
      - apply bind_inv in H as ([ms r''] & Hm & Hk). cbn [fst snd] in Hk.
        inversion Hk; subst. apply (cut_within (d :: r')); [exact Ew |].
        now apply (IHm _ ms). }
    destruct (Ascii.eqb c "[").
    { destruct (skip_ws t) as [| d r'] eqn:Ew; [discriminate H |].
      apply skip_ws_cons_suffix in Ew. apply (suffix_cons c) in Ew.
      destruct (Ascii.eqb_spec d "]") as [-> | _].
      - inversion H; subst. apply (cut_at "]"); [discriminate | exact Ew].
      - apply bind_inv in H as ([l r''] & Hm & Hk). cbn [fst snd] in Hk.
        inversion Hk; subst. apply (cut_within (d :: r')); [exact Ew |].
        now apply (IHi _ l). }
    destruct (Ascii.eqb c "n").
    { apply (keyword_cut "null" (py "nul") "l" JNull v); auto; discriminate. }
    destruct (Ascii.eqb c "t").
    { apply (keyword_cut "true" (py "tru") "e" (JBool true) v); auto; discriminate. }
    destruct (Ascii.eqb c "f").
    { apply (keyword_cut "false" (py "fals") "e" (JBool false) v); auto; discriminate. }
    destruct (Ascii.eqb c "N").
    { apply (keyword_cut "NaN" (py "Na") "N" (JFloat (py "NaN")) v); auto; discriminate. }
    destruct (Ascii.eqb c "I").
    { apply (keyword_cut "Infinity" (py "Infinit") "y" (JFloat (py "Infinity")) v);
        auto; discriminate. }
    destruct (startswith (py "-Infinity") (c :: t)).
    { apply (keyword_cut "-Infinity" (py "-Infinit") "y" (JFloat (py "-Infinity")) v);
        auto; discriminate. }
    now apply (scan_number_cut _ v).
  - intros s ms r H. cbn [parse_members] in H.
    destruct s as [| c t]; [discriminate H |].
    destruct (Ascii.eqb c quote); [| discriminate H].
    apply bind_inv in H as ([k r1] & Hs & H). cbn [fst snd] in H.
    apply (scan_string_cut (length t)) in Hs; [| lia]. apply cut_suffix in Hs.
    destruct (skip_ws r1) as [| colon r2] eqn:E1; [discriminate H |].
    apply skip_ws_cons_suffix, suffix_tail in E1.
    destruct (Ascii.eqb colon ":"); [| discriminate H].
    apply bind_inv in H as ([v r3] & Hv & H). cbn [fst snd] in H.
    apply IHv, cut_suffix in Hv.
    assert (S3 : suffix r3 (c :: t)).
    { apply suffix_cons. apply (suffix_trans _ r1); [| exact Hs].
      apply (suffix_trans _ r2); [| exact E1].
      apply (suffix_trans _ (skip_ws r2)); [exact Hv | apply skip_ws_suffix]. }
    destruct (skip_ws r3) as [| d r4] eqn:E3; [discriminate H |].
    apply skip_ws_cons_suffix in E3.
    destruct (Ascii.eqb_spec d ",") as [-> | _].
    + apply bind_inv in H as ([x r5] & Hx & H). cbn [fst snd] in H.
      inversion H; subst. apply IHm in Hx.
      apply (cut_within (skip_ws r4)); [| exact Hx].
      apply (suffix_trans _ r3); [| exact S3].
      apply (suffix_trans _ r4); [apply skip_ws_suffix |].
      now apply (suffix_tail ",").
    + destruct (Ascii.eqb_spec d "}") as [-> | _]; [| discriminate H].
      inversion H; subst. apply (cut_at "}"); [discriminate |].
      now apply (suffix_trans _ r3).
  - intros s l r H. cbn [parse_items] in H.
    apply bind_inv in H as ([v r1] & Hv & H). cbn [fst snd] in H.
    apply IHv, cut_suffix in Hv.
    destruct (skip_ws r1) as [| d r2] eqn:E1; [discriminate H |].
    apply skip_ws_cons_suffix in E1.
    destruct (Ascii.eqb_spec d ",") as [-> | _].
    + apply bind_inv in H as ([x r3] & Hx & H). cbn [fst snd] in H.
      inversion H; subst. apply IHi in Hx.
      apply (cut_within (skip_ws r2)); [| exact Hx].
      apply (suffix_trans _ r1); [| exact Hv].
      apply (suffix_trans _ r2); [apply skip_ws_suffix |].
      now apply (suffix_tail ",").
    + destruct (Ascii.eqb_spec d "]") as [-> | _]; [| discriminate H].
      inversion H; subst. apply (cut_at "]"); [discriminate |].
      now apply (suffix_trans _ r1).
Qed.

(** A value begins with neither a backtick nor the letter [j]. *)
Lemma parse_value_head (fuel : nat) (s : str) (v : json) (r : str) :
  parse_value fuel s = Ok (v, r) ->
  exists a t, s = a :: t /\ a <> backtick /\ a <> "j"%char.
Proof.
  destruct fuel as [| f]; [discriminate |].
  destruct s as [| a t]; [discriminate |].
  intros H. exists a, t. split; [reflexivity |].
  split; intros ->; cbv in H; discriminate H.
Qed.

Lemma is_ws_other (c : ascii) :
  is_ws c = true -> c <> backtick /\ c <> "j"%char.
Proof. intros H. split; intros ->; discriminate H. Qed.

Lemma skip_ws_nil (r : str) : skip_ws r = [] -> Forall (fun c => is_ws c = true) r.
Proof.
  induction r as [| c r IH]; cbn [skip_ws]; [constructor |].
  destruct (is_ws c) eqn:Hc; [| discriminate]. intros H. constructor; auto.
Qed.

(** A text the decoder accepts begins with neither a backtick nor [j],
    and does not end with a backtick. *)
Lemma loads_ends (x : str) (v : json) :
  loads x = Ok v ->
  (exists a t, x = a :: t /\ a <> backtick /\ a <> "j"%char) /\
  (exists t b, x = t ++ [b] /\ b <> backtick).
Proof.
  unfold loads. intros H. apply bind_inv in H as ([v' r] & Hv & H).
  cbn [fst snd] in H.
  destruct (skip_ws r) eqn:Er; [| discriminate H]. apply skip_ws_nil in Er.
  split.
  - apply parse_value_head in Hv as (a & t & Ea & Ha).
    destruct x as [| c x']; [discriminate Ea |]. exists c, x'. split; [reflexivity |].
    cbn [skip_ws] in Ea. destruct (is_ws c) eqn:Hc; [now apply is_ws_other |].
    now inversion Ea; subst.
  - apply (proj1 (parse_cut _)) in Hv.
    apply (cut_within _ x) in Hv; [| apply skip_ws_suffix].
    destruct Hv as (p & b & -> & Hb).
    destruct r as [| c0 r0]; [now exists p, b |].
    destruct (exists_last (l := c0 :: r0)) as (r' & c & Hr); [discriminate |].
    rewrite Hr in Er |- *. exists (p ++ b :: r'), c.
    split; [now rewrite <- app_assoc |].
    apply Forall_app in Er as [_ Er]. inversion Er; subst.
    now apply is_ws_other.
Qed.

Lemma startswith_head (p : str) (a b : ascii) (s : str) :
  a <> b -> startswith (a :: p) (b :: s) = false.
Proof.
  intros H. cbn [startswith]. destruct (Ascii.eqb_spec a b); [contradiction | reflexivity].
Qed.

(** A JSON document carries no fence: once trimmed, a text the decoder
    accepts neither starts nor ends with a fence, and it does not begin
    with [json]. *)
Lemma document_has_no_fence (d : str) (v : json) :
  loads (strip d) = Ok v ->
  startswith fence (strip d) = false /\
  endswith fence (strip d) = false /\
  startswith (py "json") d = false.
Proof.
  intros H. apply loads_ends in H as [(a & t & Ea & Hb & Hj) (u & b & Eb & Hl)].
  split; [| split].
  - rewrite Ea. apply (startswith_head _ backtick a t). congruence.
  - unfold endswith. rewrite Eb, rev_app_distr.
    apply (startswith_head _ backtick b (rev u)). congruence.
  - destruct d as [| c d']; [reflexivity |].
    destruct (Ascii.eqb_spec "j"%char c) as [<- | Hc];
      [| now apply (startswith_head _ "j"%char c d')].
    exfalso. apply Hj. unfold strip in Ea.
    rewrite (lstrip_fixed "j"%char d' eq_refl) in Ea.
    destruct (rstrip_keeps_head "j"%char d' eq_refl) as [w Hw].
    rewrite Hw in Ea. now inversion Ea.
Qed.

(** A JSON document in a fenced block is interpreted as the document
    alone. *)
Lemma fenced_document (d goal opening w1 w2 : str) (v : json) :
  loads (strip d) = Ok v ->
  opening = tagged_fence \/ opening = fence ->
  blank w1 -> blank w2 ->
  _parse_ai_response loads (opening ++ w1 ++ d ++ w2 ++ fence) goal =
  _parse_ai_response loads d goal.
Proof.
  intros H Hop H1 H2. apply document_has_no_fence in H as (Hs & He & Hj).
  apply parse_ai_response_clean.
  rewrite (clean_fenced opening w1 d w2 Hop H1 H2).
  - symmetry. now apply clean_unfenced.
  - intros _. destruct H1 as [| c w1 Hc _]; [exact Hj |].
    cbn [app]. apply (startswith_head _ "j"%char c (w1 ++ d)).
    intros <-. discriminate Hc.
Qed.

End DecoderFacts.

(** ** The properties of the specification *)

Section Claims.
Import AIService PyObject Samples.

Variable loads : str -> outcome json.
Variable post : str -> json -> Z -> reply.
Variable api_key : option str.

(** C1 (the code departs from the specification).  For the timeframe [1 hour] the
    fallback generator returns three tasks of one hour each, three hours in
    all, and reports a total of one hour: [total_estimated_hours] is the
    budget of the timeframe, not the sum of the hours of the tasks. *)
Theorem fallback_total_is_not_the_sum :
  exists r,
    _create_smart_tasks (py "x") (Some (py "1 hour")) = Ok r /\
    map estimated_hours (tasks r) = [JInt 1; JInt 1; JInt 1] /\
    total_estimated_hours r = PyInt 1.
Proof. eexists. repeat split. Qed.

(** C2 (the code departs from the specification).  With every request failing and
    the timeframe made of the one character U+00B2 (superscript two), which
    passes [isdigit] and which [int] refuses, [break_down_goal] tries the
    seven models and then raises [ValueError] to its caller. *)
Theorem prober_raises_on_superscript_digit :
  break_down_goal loads offline api_key (py "x") (Some [chr 178]) =
  (possible_models, Raise ValueError).
Proof. reflexivity. Qed.

(** C4, amended.  On every timeframe whose numbers convert, that is
    whose all-digit tokens are made of the digits 0 to 9, 4300 of them at
    most (absent and empty timeframe included), the heuristic returns an
    integer that is not negative, and that is at least [1] when the
    quantity of the text is not zero. *)
Theorem timeframe_hours_not_negative (timeframe : option str) :
  convertible timeframe ->
  exists h,
    _parse_timeframe timeframe = Ok h /\
    0 <= h /\
    (nonzero_quantity timeframe -> 1 <= h).
Proof.
  intros Hc. destruct (parse_timeframe_returns timeframe Hc) as [h Hh].
  exists h. split; [exact Hh |]. now apply parse_timeframe_bounds.
Qed.

(** C8.  When the attempts with the models before [m] raise and the
    attempt with [m] returns [r], [break_down_goal] returns [r] after
    attempting exactly those models and [m], each once and none after [m]. *)
Theorem first_success_wins
    (goal : str) (timeframe : option str)
    (failed : list str) (m : str) (later : list str) (r : Breakdown) :
  possible_models = failed ++ m :: later ->
  Forall (fun x => raises (_try_model loads post api_key x goal timeframe)) failed ->
  _try_model loads post api_key m goal timeframe = Ok r ->
  break_down_goal loads post api_key goal timeframe = (failed ++ [m], Ok r) /\
  length (failed ++ [m]) = S (length failed) /\
  NoDup (failed ++ [m]).
Proof.
  intros Hl Hf Hm. unfold break_down_goal. rewrite Hl.
  split; [now apply try_models_first_success |].
  split; [rewrite length_app; simpl; lia |].
  pose proof possible_models_distinct as Hd. rewrite Hl in Hd.
  replace (failed ++ m :: later) with ((failed ++ [m]) ++ later) in Hd
    by (now rewrite <- app_assoc).
  now apply NoDup_app_remove_r in Hd.
Qed.


(** C3, amended.  The fallback breakdown has exactly three tasks; a
    breakdown returned by the interpreter has one task per entry of the
    [tasks] list of the document, and no task when the document has no
    such field. *)
Theorem tasks_one_per_entry
    (goal : str) (timeframe : option str) (content : str) (r : Breakdown) :
  (_create_smart_tasks goal timeframe = Ok r -> length (tasks r) = 3%nat) /\
  (_parse_ai_response loads content goal = Ok r ->
   exists data entries,
     loads (clean content) = Ok data /\
     entries_of data = Ok entries /\
     length (tasks r) = length entries) /\
  (forall members,
     loads (clean content) = Ok (JObj members) ->
     dict_lookup members (py "tasks") = None ->
     _parse_ai_response loads content goal = Ok r ->
     tasks r = []).
Proof.
  assert (Hi : _parse_ai_response loads content goal = Ok r ->
               exists data entries,
                 loads (clean content) = Ok data /\
                 entries_of data = Ok entries /\
                 length (tasks r) = length entries).
  { intros H. destruct (parse_ai_response_inv _ _ _ _ H) as (data & Hd & Ha).
    destruct (assemble_inv _ _ Ha) as (entries & He & Hb & _).
    exists data, entries. repeat split; try assumption.
    apply build_tasks_inv in Hb. symmetry. now apply Forall2_length in Hb. }
  split; [| split; [exact Hi |]].
  - intros H. destruct (create_smart_tasks_inv _ _ _ H) as (h & _ & Ht & _).
    apply (f_equal (@length _)) in Ht. now rewrite length_map in Ht.
  - intros members Hd Hn H. destruct (Hi H) as (data & entries & Hd' & He & Hl).
    rewrite Hd in Hd'. inversion Hd'; subst data.
    unfold entries_of, get in He. rewrite Hn in He. inversion He; subst entries.
    now destruct (tasks r).
Qed.

(** C5, amended.  The priority of every task of a breakdown returned by
    the interpreter is the value under [priority] in the entry the task
    comes from, whatever that value is; and an entry without that field
    makes the interpreter raise. *)
Theorem priority_is_copied (content goal : str) (data : json) (entries : list json) :
  loads (clean content) = Ok data ->
  entries_of data = Ok entries ->
  (forall r, _parse_ai_response loads content goal = Ok r ->
     Forall2 (fun e t => subscript e (py "priority") = Ok (priority t)) entries (tasks r)) /\
  (forall e, In e entries -> raises (subscript e (py "priority")) ->
     raises (_parse_ai_response loads content goal)).
Proof.
  intros Hd He. rewrite (parse_ai_response_decoded _ _ _ _ Hd). split.
  - intros r Ha. destruct (assemble_inv _ _ Ha) as (entries' & He' & Hb & _).
    rewrite He in He'. inversion He'; subst entries'.
    apply build_tasks_inv in Hb.
    eapply Forall2_impl; [| exact Hb]. intros e t Hc. apply Hc.
  - intros e Hin Hr. apply (assemble_missing_field data entries e (py "priority"));
      try assumption.
    unfold required_fields. do 3 right. left. reflexivity.
Qed.

(** C6, amended.  The total of a breakdown returned by the interpreter is
    the sum the interpreter computes over the hours of its own tasks: the
    integer sum when every one of them is an integer, and a float, the sum
    of those numbers, when one at least is a float; and a member of the
    document under another key than [tasks] and [reasoning], such as a
    total supplied by the model, does not change what the interpreter
    returns. *)
Theorem total_is_sum_of_task_hours (content goal : str) (r : Breakdown) :
  _parse_ai_response loads content goal = Ok r ->
  ((exists hs,
      Forall2 (fun t h => int_value (estimated_hours t) = Some h) (tasks r) hs /\
      total_estimated_hours r = PyInt (total hs)) \/
   (Exists (fun t => is_float (estimated_hours t) = true) (tasks r) /\
    Forall (fun t => numeric (estimated_hours t) = true) (tasks r) /\
    total_estimated_hours r = PyFloat (map estimated_hours (tasks r)))) /\
  (forall other l1 l2 k v,
     loads (clean content) = Ok (JObj (l1 ++ (k, v) :: l2)) ->
     loads (clean other) = Ok (JObj (l1 ++ l2)) ->
     str_eqb k (py "tasks") = false ->
     str_eqb k (py "reasoning") = false ->
     _parse_ai_response loads other goal = Ok r).
Proof.
  intros H. split.
  - destruct (parse_ai_response_inv _ _ _ _ H) as (data & _ & Ha).
    destruct (assemble_inv _ _ Ha) as (entries & _ & _ & Hs & _).
    apply sum_inv in Hs as [(hs & F & Ht) | (Ht & F & X)].
    + left. exists hs. split; [| exact Ht].
      clear -F. revert hs F. induction (tasks r) as [| t ts IH]; intros hs F;
        inversion F; subst; constructor; auto.
    + right. split; [| split; [| exact Ht]].
      * now apply Exists_map in X.
      * now apply Forall_map in F.
  - intros other l1 l2 k v H1 H2 Ht Hr.
    rewrite (parse_ai_response_decoded _ _ _ _ H2).
    rewrite (parse_ai_response_decoded _ _ _ _ H1) in H.
    now rewrite <- (assemble_unread_field l1 l2 k v Ht Hr).
Qed.

(** C7.  The interpreter raises, and so returns no breakdown, when the
    cleaned text does not decode, when the decoded document is not an
    object, when it has no [reasoning], and when an entry of its [tasks]
    lacks [title], [description], [estimated_hours] or [priority]. *)
Theorem interpreter_raises (content goal : str) :
  (raises (loads (clean content)) ->
   raises (_parse_ai_response loads content goal)) /\
  (loads (clean content) = Raise JSONDecodeError ->
   _parse_ai_response loads content goal = Raise ParseFailure) /\
  (forall data, loads (clean content) = Ok data ->
     (forall members, data <> JObj members) ->
     raises (_parse_ai_response loads content goal)) /\
  (forall data, loads (clean content) = Ok data ->
     raises (subscript data (py "reasoning")) ->
     raises (_parse_ai_response loads content goal)) /\
  (forall data entries e k, loads (clean content) = Ok data ->
     entries_of data = Ok entries ->
     In e entries -> In k required_fields -> raises (subscript e k) ->
     raises (_parse_ai_response loads content goal)).
Proof.
  repeat split.
  - apply parse_ai_response_undecoded.
  - unfold _parse_ai_response. now intros ->.
  - intros data Hd Hn. rewrite (parse_ai_response_decoded _ _ _ _ Hd).
    now apply assemble_not_object.
  - intros data Hd Hr. rewrite (parse_ai_response_decoded _ _ _ _ Hd).
    now apply assemble_no_reasoning.
  - intros data entries e k Hd He Hin Hk Hr.
    rewrite (parse_ai_response_decoded _ _ _ _ Hd).
    now apply (assemble_missing_field data entries e k).
Qed.

(** A fenced block around any text without a fence, for any decoder.
    For a text [d] that carries no fence of its own (its
    trimmed text neither starts nor ends with a fence), the interpreter
    gives the same outcome on [d] and on [d] put in a fenced block, the
    opening fence being the tagged or the bare one, with any blank text
    (line ends, spaces, or nothing) between the fences and [d]; after a
    bare fence, what follows must not begin with [json], which would make
    the fence a tagged one. *)
Theorem fenced_same_as_unfenced (d goal opening w1 w2 : str) :
  opening = tagged_fence \/ opening = fence ->
  blank w1 -> blank w2 ->
  startswith fence (strip d) = false ->
  endswith fence (strip d) = false ->
  (opening = fence -> startswith (py "json") (w1 ++ d) = false) ->
  _parse_ai_response loads (opening ++ w1 ++ d ++ w2 ++ fence) goal =
  _parse_ai_response loads d goal.
Proof.
  intros Hop H1 H2 Hs He Hj. apply parse_ai_response_clean.
  rewrite (clean_fenced opening w1 d w2 Hop H1 H2 Hj).
  symmetry. now apply clean_unfenced.
Qed.

(** C9.  For every JSON document [d], the interpreter gives the same
    outcome, and so the same breakdown when it accepts [d], on [d] and on
    [d] put in a fenced block: an opening fence, tagged or bare, and a
    closing fence, with any blank text (line ends, spaces, or nothing)
    between the fences and [d]. *)
Theorem fenced_document_same_as_unfenced
    (d goal opening w1 w2 : str) (data : json) :
  Json.loads (strip d) = Ok data ->
  opening = tagged_fence \/ opening = fence ->
  blank w1 -> blank w2 ->
  _parse_ai_response Json.loads (opening ++ w1 ++ d ++ w2 ++ fence) goal =
  _parse_ai_response Json.loads d goal.
Proof. apply fenced_document. Qed.

End Claims.

(** ** Runs on the sample documents *)

Section Runs.
Import AIService PyObject Samples.

Lemma answer_decodes : Json.loads (clean answer) = Ok answer_document.
Proof. vm_compute. reflexivity. Defined.

Lemma answer_entries_listed : entries_of answer_document = Ok answer_entries.
Proof. vm_compute. reflexivity. Defined.

Lemma answer_interpreted :
  _parse_ai_response Json.loads answer (py "Learn") = Ok answer_breakdown.
Proof. vm_compute. reflexivity. Defined.

(** C3: the interpreter accepts a document without tasks and returns a
    breakdown whose task list is empty. *)
Lemma interpreter_accepts_no_tasks :
  _parse_ai_response Json.loads answer_without_tasks (py "Learn") =
  Ok {| reasoning := JStr (py "Nothing to do"); tasks := []; total_estimated_hours := PyInt 0 |}.
Proof. vm_compute. reflexivity. Qed.

Lemma tasks_one_per_entry_witness :
  (exists r, _create_smart_tasks (py "Learn") None = Ok r /\ length (tasks r) = 3%nat) /\
  (exists data entries,
     Json.loads (clean answer) = Ok data /\
     entries_of data = Ok entries /\
     length (tasks answer_breakdown) = length entries).
Proof.
  split.
  - eexists. split; [reflexivity |].
    apply (proj1 (tasks_one_per_entry Json.loads (py "Learn") None answer _)).
    reflexivity.
  - apply (proj1 (proj2 (tasks_one_per_entry Json.loads (py "Learn") None answer
                            answer_breakdown))).
    exact answer_interpreted.
Defined.

(** C4: a timeframe of zero hours converts to a budget of zero. *)
Lemma zero_hours_gives_zero : _parse_timeframe (Some (py "0 hours")) = Ok 0.
Proof. vm_compute. reflexivity. Qed.

Lemma timeframe_hours_not_negative_witness :
  convertible (Some (py "2 weeks")) /\
  exists h, _parse_timeframe (Some (py "2 weeks")) = Ok h /\ 0 <= h /\
            (nonzero_quantity (Some (py "2 weeks")) -> 1 <= h).
Proof.
  assert (H : convertible (Some (py "2 weeks"))) by (vm_compute; repeat constructor).
  split; [exact H |].
  exact (timeframe_hours_not_negative (Some (py "2 weeks")) H).
Defined.

(** C5: the interpreter returns a task whose priority is [urgent], and
    raises on an entry that has no priority. *)
Lemma priority_is_not_validated :
  _parse_ai_response Json.loads answer_urgent (py "Learn") =
  Ok {| reasoning := JStr (py "One step");
        tasks := [ {| id := py "1";
                      title := JStr (py "Read");
                      description := JStr (py "Read the guide");
                      estimated_hours := JInt 2;
                      priority := JStr (py "urgent");
                      status := py "pending" |} ];
        total_estimated_hours := PyInt 2 |} /\
  _parse_ai_response Json.loads answer_without_priority (py "Learn") =
  Raise (KeyError (py "priority")).
Proof. split; vm_compute; reflexivity. Qed.

Lemma priority_is_copied_witness :
  Forall2 (fun e t => subscript e (py "priority") = Ok (priority t))
          answer_entries (tasks answer_breakdown).
Proof.
  apply (proj1 (priority_is_copied Json.loads answer (py "Learn")
                  answer_document answer_entries
                  answer_decodes answer_entries_listed)).
  exact answer_interpreted.
Defined.

(** C6: the interpreter accepts a document whose task takes two hours and
    a half, and the total it returns is a float, not an integer sum. *)
Lemma fractional_hours_give_float_total :
  _parse_ai_response Json.loads answer_half_hours (py "Learn") =
  Ok {| reasoning := JStr (py "One step");
        tasks := [ {| id := py "1";
                      title := JStr (py "Read");
                      description := JStr (py "Read the guide");
                      estimated_hours := JFloat (py "2.5");
                      priority := JStr (py "high");
                      status := py "pending" |} ];
        total_estimated_hours := PyFloat [JFloat (py "2.5")] |}.
Proof. vm_compute. reflexivity. Qed.

Lemma total_is_sum_of_task_hours_witness :
  ((exists hs,
      Forall2 (fun t h => int_value (estimated_hours t) = Some h) (tasks answer_breakdown) hs /\
      total_estimated_hours answer_breakdown = PyInt (total hs)) \/
   (Exists (fun t => is_float (estimated_hours t) = true) (tasks answer_breakdown) /\
    Forall (fun t => numeric (estimated_hours t) = true) (tasks answer_breakdown) /\
    total_estimated_hours answer_breakdown =
    PyFloat (map estimated_hours (tasks answer_breakdown)))) /\
  _parse_ai_response Json.loads answer_without_total (py "Learn") = Ok answer_breakdown.
Proof.
  destruct (total_is_sum_of_task_hours Json.loads answer (py "Learn") answer_breakdown
              answer_interpreted) as [Hsum Hsame].
  split; [exact Hsum |].
  apply (Hsame answer_without_total
           [ (py "reasoning", JStr (py "Two steps")); (py "tasks", JArr answer_entries) ]
           [] (py "total_estimated_hours") (JInt 99));
    vm_compute; reflexivity.
Defined.

Lemma interpreter_raises_witness :
  _parse_ai_response Json.loads (py "I cannot help") (py "Learn") = Raise ParseFailure /\
  raises (_parse_ai_response Json.loads answer_without_reasoning (py "Learn")) /\
  raises (_parse_ai_response Json.loads answer_without_priority (py "Learn")).
Proof.
  split; [| split].
  - apply (proj1 (proj2 (interpreter_raises Json.loads (py "I cannot help") (py "Learn")))).
    vm_compute. reflexivity.
  - destruct (interpreter_raises Json.loads answer_without_reasoning (py "Learn"))
      as (_ & _ & _ & H & _).
    eapply H; [vm_compute; reflexivity |].
    eexists. vm_compute. reflexivity.
  - destruct (interpreter_raises Json.loads answer_without_priority (py "Learn"))
      as (_ & _ & _ & _ & H).
    eapply (H _ _ _ (py "priority")).
    + vm_compute. reflexivity.
    + vm_compute. reflexivity.
    + left. reflexivity.
    + unfold required_fields. do 3 right. left. reflexivity.
    + eexists. vm_compute. reflexivity.
Defined.

Lemma first_success_wins_witness :
  break_down_goal Json.loads second_answers (Some (py "k")) (py "Learn") None =
  ([py "gemini-2.0-flash"; py "gemini-2.0-flash-001"], Ok answer_breakdown) /\
  length ([py "gemini-2.0-flash"] ++ [py "gemini-2.0-flash-001"]) = 2%nat /\
  NoDup ([py "gemini-2.0-flash"] ++ [py "gemini-2.0-flash-001"]).
Proof.
  apply (first_success_wins Json.loads second_answers (Some (py "k")) (py "Learn") None
           [py "gemini-2.0-flash"] (py "gemini-2.0-flash-001")
           [ py "gemini-2.0-flash-lite"; py "gemini-2.0-flash-lite-001";
             py "gemini-pro-latest"; py "gemini-2.5-flash"; py "gemini-2.5-pro" ]
           answer_breakdown).
  - reflexivity.
  - constructor; [| constructor]. eexists. vm_compute. reflexivity.
  - vm_compute. reflexivity.
Defined.

(** One fence only is removed at each end: a fenced block put in a
    second fenced block is not decoded. *)
Lemma fence_is_removed_once :
  _parse_ai_response Json.loads answer (py "Learn") = Ok answer_breakdown /\
  _parse_ai_response Json.loads
    (tagged_fence ++ newline ++ answer ++ newline ++ fence) (py "Learn") =
  Raise ParseFailure.
Proof. split; vm_compute; reflexivity. Qed.

Lemma fenced_same_as_unfenced_run :
  _parse_ai_response Json.loads
    (tagged_fence ++ newline ++ plain_answer ++ newline ++ fence) (py "Learn") =
  _parse_ai_response Json.loads plain_answer (py "Learn").
Proof.
  apply (fenced_same_as_unfenced Json.loads plain_answer (py "Learn")
           tagged_fence newline newline).
  - left. reflexivity.
  - repeat constructor.
  - repeat constructor.
  - vm_compute. reflexivity.
  - vm_compute. reflexivity.
  - intros _. vm_compute. reflexivity.
Defined.

Lemma fenced_document_same_as_unfenced_witness :
  _parse_ai_response Json.loads
    (tagged_fence ++ newline ++ answer_half_hours ++ newline ++ fence) (py "Learn") =
  _parse_ai_response Json.loads answer_half_hours (py "Learn").
Proof.
  eapply (fenced_document_same_as_unfenced answer_half_hours (py "Learn")
            tagged_fence newline newline).
  - vm_compute. reflexivity.
  - left. reflexivity.
  - repeat constructor.
  - repeat constructor.
Defined.


End Runs.

(** * Further properties of the code *)

(** ** The timeframe heuristic and the fallback generator *)

Section MoreTimeframe.
Import AIService PyObject.

Lemma comprehension_int_outcome (ts : list str) :
  (exists ns, comprehension int ts = Ok ns) \/ comprehension int ts = Raise ValueError.
Proof.
  induction ts as [| t ts IH]; cbn [comprehension]; [left; now exists [] |].
  destruct (int t) as [n | e |] eqn:E; cbn [bind].
  - destruct IH as [[ns ->] | ->]; cbn [bind]; [left; eexists; reflexivity | now right].
  - right. f_equal. unfold int in E.
    destruct (forallb is_decimal t && (length t <=? max_str_digits)%nat); congruence.
  - unfold int in E.
    destruct (forallb is_decimal t && (length t <=? max_str_digits)%nat); discriminate E.
Qed.

(** The heuristic returns or raises [ValueError], nothing else. *)
Lemma parse_timeframe_outcome (timeframe : option str) :
  returns (_parse_timeframe timeframe) \/ _parse_timeframe timeframe = Raise ValueError.
Proof.
  destruct timeframe as [[| c s] |]; [left; now exists 8 | | left; now exists 8].
  unfold _parse_timeframe.
  destruct (comprehension_int_outcome (filter isdigit (split (lower (c :: s)))))
    as [[ns ->] | ->]; cbn [bind]; [left | now right].
  repeat match goal with |- context [if ?b then _ else _] => destruct b end;
    eexists; reflexivity.
Qed.

(** X1.  On text of the Latin-1 range, the heuristic returns exactly on
    the timeframes whose all-digit tokens are made of the digits 0 to 9,
    4300 of them at most, and raises [ValueError] on every other: on a
    token with a superscript digit, and on a token of more than 4300
    digits. *)
Theorem timeframe_returns_iff_decimal (timeframe : option str) :
  (returns (_parse_timeframe timeframe) <-> convertible timeframe) /\
  (_parse_timeframe timeframe = Raise ValueError <-> ~ convertible timeframe).
Proof.
  split; split.
  - intros [h Hh]. now apply (parse_timeframe_convertible timeframe h).
  - apply parse_timeframe_returns.
  - intros Hr Hc. apply parse_timeframe_returns in Hc as [h Hh]. congruence.
  - intros Hn. destruct (parse_timeframe_outcome timeframe) as [[h Hh] | Hr]; [| exact Hr].
    elim Hn. now apply (parse_timeframe_convertible timeframe h).
Qed.

(** X2.  The heuristic does not see the case of letters: two texts that
    are the same once lowered get the same outcome. *)
Theorem timeframe_ignores_case (s s' : str) :
  lower s = lower s' ->
  _parse_timeframe (Some s) = _parse_timeframe (Some s').
Proof.
  intros H. destruct s as [| c s], s' as [| c' s']; try discriminate H; [reflexivity |].
  unfold _parse_timeframe. now rewrite H.
Qed.

Lemma isspace_lower_char (c : ascii) : isspace (lower_char c) = isspace c.
Proof. destruct c as [[] [] [] [] [] [] [] []]; reflexivity. Qed.

Lemma isdigit_lower_char (c : ascii) : isdigit_char (lower_char c) = isdigit_char c.
Proof. destruct c as [[] [] [] [] [] [] [] []]; reflexivity. Qed.

Lemma forallb_lower (f : ascii -> bool) (s : str) :
  (forall c, f (lower_char c) = f c) -> forallb f (lower s) = forallb f s.
Proof.
  intros H. induction s as [| c s IH]; [reflexivity |].
  unfold lower in *. cbn [map forallb]. now rewrite H, IH.
Qed.

Lemma isdigit_lower (s : str) : isdigit (lower s) = isdigit s.
Proof.
  destruct s as [| c s]; [reflexivity |].
  change (forallb isdigit_char (lower (c :: s)) = forallb isdigit_char (c :: s)).
  apply forallb_lower. apply isdigit_lower_char.
Qed.

(** A text without whitespace is one token, or none when it is empty. *)
Lemma split_aux_solid (s cur : str) :
  forallb (fun c => negb (isspace c)) s = true ->
  split_aux cur s = match rev cur ++ s with [] => [] | t => [t] end.
Proof.
  revert cur. induction s as [| c s IH]; intros cur H; cbn [split_aux].
  - rewrite app_nil_r. destruct cur as [| a cur]; [reflexivity |].
    cbn [rev]. now destruct (rev cur).
  - cbn [forallb] in H. apply andb_true_iff in H as [Hc Hs].
    apply negb_true_iff in Hc. rewrite Hc, (IH (c :: cur) Hs).
    cbn [rev]. now rewrite <- app_assoc.
Qed.

(** X3.  A number counts only as a token of its own: on a text without
    whitespace that is not all digits, such as [2weeks], the quantity is
    [1], so that the heuristic gives the hours of one unit. *)
Theorem glued_number_is_not_read (s : str) :
  s <> [] ->
  forallb (fun c => negb (isspace c)) s = true ->
  isdigit s = false ->
  _parse_timeframe (Some s) =
  Ok (if contains (py "minute") (lower s) then 1
      else if contains (py "hour") (lower s) then 1
      else if contains (py "day") (lower s) then 8
      else if contains (py "week") (lower s) then 40
      else if contains (py "month") (lower s) then 160
      else 8).
Proof.
  intros Hne Hs Hd.
  assert (Ht : digit_tokens s = []).
  { unfold digit_tokens, split. rewrite split_aux_solid.
    - cbn [rev app]. destruct (lower s) eqn:E; [reflexivity |].
      rewrite <- E. cbn [filter]. now rewrite isdigit_lower, Hd.
    - rewrite forallb_lower; [exact Hs |].
      intros x. now rewrite isspace_lower_char. }
  destruct s as [| c s]; [congruence |].
  rewrite parse_timeframe_text by (unfold decimal_tokens; rewrite Ht; constructor).
  unfold quantity. rewrite Ht.
  repeat match goal with |- context [if ?b then _ else _] => destruct b end; reflexivity.
Qed.

(** X4.  The hours of the three fallback tasks against the total the
    fallback reports: below four hours of budget they add up to three;
    from four hours on they add up to the total or to at most two hours
    less, and to the total exactly when it is a multiple of four. *)
Theorem fallback_hours_against_total
    (goal : str) (timeframe : option str) (r : Breakdown) :
  _create_smart_tasks goal timeframe = Ok r ->
  exists a b c h,
    map estimated_hours (tasks r) = [JInt a; JInt b; JInt c] /\
    total_estimated_hours r = PyInt h /\
    1 <= a /\ 1 <= b /\ a = c /\
    0 <= h /\
    (h < 4 -> a + b + c = 3) /\
    (4 <= h ->
     h - 2 <= a + b + c <= h /\
     (a + b + c = h <-> h mod 4 = 0)).
Proof.
  intros H. destruct (create_smart_tasks_inv _ _ _ H) as (h & Hh & _ & He & _ & _ & Ht).
  destruct (parse_timeframe_bounds _ _ Hh) as [H0 _].
  exists (Z.max 1 (h / 4)), (Z.max 1 (h / 2)), (Z.max 1 (h / 4)), h.
  split; [exact He |]. split; [exact Ht |].
  repeat split; try (Z.div_mod_to_equations; lia).
Qed.

End MoreTimeframe.

(** ** The response interpreter *)

Section MoreInterpreter.
Import AIService PyObject.

Variable loads : str -> outcome json.

(** X5.  A breakdown returned by the interpreter holds, task by task and
    in the order of the document, the title, description, hours and
    priority of the entries as they are, with the status [pending], and
    the reasoning of the document as it is. *)
Theorem interpreter_copies_entries
    (content goal : str) (data : json) (entries : list json) (r : Breakdown) :
  loads (clean content) = Ok data ->
  entries_of data = Ok entries ->
  _parse_ai_response loads content goal = Ok r ->
  Forall2 copied entries (tasks r) /\
  subscript data (py "reasoning") = Ok (reasoning r).
Proof.
  intros Hd He H. rewrite (parse_ai_response_decoded _ _ _ _ Hd) in H.
  destruct (assemble_inv _ _ H) as (entries' & He' & Hb & _ & Hr).
  rewrite He in He'. inversion He'; subst entries'.
  split; [now apply (build_tasks_inv 0) | exact Hr].
Qed.

Lemma add_modelled (acc : accumulator) (v : json) : add acc v <> OutOfModel.
Proof.
  destruct acc, v; cbn [add]; try discriminate;
    match goal with |- context [if ?b then _ else _] => destruct b; discriminate end.
Qed.

(** [sum] raises on a list that holds a value it cannot add. *)
Lemma sum_non_numeric (vs : list json) (v : json) (acc : accumulator) :
  In v vs -> numeric v = false -> raises (sum_from acc vs).
Proof.
  intros Hin Hv. revert acc. induction vs as [| x vs IH]; intros acc; [contradiction |].
  cbn [sum_from].
  destruct (add acc x) as [acc' | e |] eqn:E; cbn [bind];
    [| now exists e | now apply add_modelled in E].
  destruct Hin as [-> | Hin]; [| now apply IH].
  destruct acc, v; cbn [add] in E; discriminate.
Qed.

(** X6.  Hours that are not a number (text, [null], a list, an object)
    in any entry make the interpreter raise. *)
Theorem non_numeric_hours_raise
    (content goal : str) (data : json) (entries : list json) (e v : json) :
  loads (clean content) = Ok data ->
  entries_of data = Ok entries ->
  In e entries ->
  subscript e (py "estimated_hours") = Ok v ->
  numeric v = false ->
  raises (_parse_ai_response loads content goal).
Proof.
  intros Hd He Hin Hv Hn. rewrite (parse_ai_response_decoded _ _ _ _ Hd).
  unfold entries_of in He. unfold assemble.
  destruct (get data (py "tasks") (JArr [])) as [listed | |]; try discriminate He.
  cbn [bind] in He |- *. rewrite He. cbn [bind].
  destruct (build_tasks 0 entries) as [ts | x |] eqn:Eb; cbn [bind];
    [| now exists x | now apply build_tasks_modelled in Eb].
  apply build_tasks_inv in Eb.
  assert (Hm : In v (map estimated_hours ts)).
  { clear -Eb Hin Hv. induction Eb as [| e' t es ts Hc _ IH]; [contradiction |].
    destruct Hin as [-> | Hin]; [left | right; now apply IH].
    destruct Hc as (_ & _ & Hh & _). congruence. }
  destruct (sum_non_numeric _ v (AccInt 0) Hm Hn) as [x Hx].
  unfold sum. rewrite Hx. now exists x.
Qed.

Lemma dict_keys_nonempty (m : str * json) (ms : list (str * json)) :
  exists k ks, dict_keys (m :: ms) = k :: ks.
Proof. destruct m as [k v]. unfold dict_keys. cbn. eexists _, _. reflexivity. Qed.

(** X7.  When the [tasks] of the document are not a list: a number, a
    boolean or [null], a text that is not empty and an object that is not
    empty make the interpreter raise; the empty text and the empty object
    are read as no task. *)
Theorem tasks_of_another_type
    (content goal : str) (members : list (str * json)) (v : json) :
  loads (clean content) = Ok (JObj members) ->
  dict_lookup members (py "tasks") = Some v ->
  match v with
  | JArr _ => True
  | JStr [] | JObj [] =>
      forall x, dict_lookup members (py "reasoning") = Some x ->
        _parse_ai_response loads content goal =
        Ok {| reasoning := x; tasks := []; total_estimated_hours := PyInt 0 |}
  | _ => raises (_parse_ai_response loads content goal)
  end.
Proof.
  intros Hd Hv. rewrite (parse_ai_response_decoded _ _ _ _ Hd).
  unfold assemble, get, subscript. rewrite Hv. cbn [bind].
  destruct v as [| b | z | l | s | items | ms]; try (now exists TypeError); [| exact I |].
  - destruct s as [| c s]; [| now exists TypeError].
    intros x Hx. cbn [iter map bind build_tasks]. unfold sum.
    cbn [map sum_from bind]. now rewrite Hx.
  - destruct ms as [| m ms].
    + intros x Hx. cbn [iter dict_keys dict_keys_from map bind build_tasks].
      unfold sum. cbn [map sum_from bind]. now rewrite Hx.
    + destruct (dict_keys_nonempty m ms) as (k & ks & E).
      cbn [iter]. rewrite E. now exists TypeError.
Qed.

(** X8.  Whitespace around the answer of a model, of any kind and
    length, does not change what the interpreter gives. *)
Theorem interpreter_ignores_surrounding_blanks (w1 d w2 goal : str) :
  blank w1 -> blank w2 ->
  _parse_ai_response loads (w1 ++ d ++ w2) goal = _parse_ai_response loads d goal.
Proof.
  intros H1 H2. apply parse_ai_response_clean. unfold clean.
  now rewrite (strip_padded w1 d w2 H1 H2).
Qed.

(** A member under another key changes no lookup of an entry. *)
Lemma subscript_other (l1 l2 : list (str * json)) (k k' : str) (v : json) :
  str_eqb k k' = false ->
  subscript (JObj (l1 ++ (k, v) :: l2)) k' = subscript (JObj (l1 ++ l2)) k'.
Proof. intros H. unfold subscript. now rewrite dict_lookup_other. Qed.

Lemma build_tasks_same_fields (i : nat) (before after : list json) (e e' : json) :
  (forall k, In k required_fields -> subscript e k = subscript e' k) ->
  build_tasks i (before ++ e :: after) = build_tasks i (before ++ e' :: after).
Proof.
  intros H. revert i. induction before as [| x before IH]; intros i;
    cbn [app build_tasks].
  - rewrite !H by (unfold required_fields; cbn [In]; auto). reflexivity.
  - now rewrite IH.
Qed.

(** X9.  A member of a task entry under another key than the four the
    interpreter reads changes nothing of the outcome. *)
Theorem unread_member_of_an_entry
    (content other goal : str) (members others : list (str * json))
    (before after : list json) (l1 l2 : list (str * json)) (k : str) (v : json) :
  loads (clean content) = Ok (JObj members) ->
  loads (clean other) = Ok (JObj others) ->
  dict_lookup members (py "tasks") = Some (JArr (before ++ JObj (l1 ++ (k, v) :: l2) :: after)) ->
  dict_lookup others (py "tasks") = Some (JArr (before ++ JObj (l1 ++ l2) :: after)) ->
  dict_lookup members (py "reasoning") = dict_lookup others (py "reasoning") ->
  existsb (str_eqb k) required_fields = false ->
  _parse_ai_response loads content goal = _parse_ai_response loads other goal.
Proof.
  intros H1 H2 Ht1 Ht2 Hr Hk.
  rewrite (parse_ai_response_decoded _ _ _ _ H1), (parse_ai_response_decoded _ _ _ _ H2).
  unfold assemble, get, subscript. rewrite Ht1, Ht2, Hr. cbn [bind iter].
  rewrite (build_tasks_same_fields 0 before after
             (JObj (l1 ++ (k, v) :: l2)) (JObj (l1 ++ l2))); [reflexivity |].
  intros k' Hin. apply subscript_other.
  destruct (str_eqb k k') eqn:E; [| reflexivity].
  rewrite <- Hk. symmetry. apply existsb_exists. now exists k'.
Qed.

Lemma str_of_nat_inj (n m : nat) : str_of_nat n = str_of_nat m -> n = m.
Proof.
  unfold str_of_nat, py. intros H.
  apply (f_equal string_of_list_ascii) in H.
  rewrite !string_of_list_ascii_of_string in H.
  apply (f_equal NilEmpty.uint_of_string) in H. rewrite !NilEmpty.usu in H.
  inversion H as [E]. now apply DecimalNat.Unsigned.to_uint_inj.
Qed.

Lemma ids_from_one_distinct (n : nat) : NoDup (ids_from_one n).
Proof.
  unfold ids_from_one. generalize (seq_NoDup n 0).
  induction (seq 0 n) as [| a l IH]; intros H; cbn [map]; [constructor |].
  inversion H as [| ? ? Ha Hl]; subst. constructor; [| now apply IH].
  intros Hin. apply in_map_iff in Hin as (b & E & Hb).
  apply str_of_nat_inj in E. assert (b = a) by lia. now subst.
Qed.

(** The identifiers and the status of the tasks the interpreter gives. *)
Lemma interpreted_ids (content goal : str) (r : Breakdown) :
  _parse_ai_response loads content goal = Ok r ->
  map id (tasks r) = ids_from_one (length (tasks r)) /\
  Forall (fun t => status t = py "pending") (tasks r).
Proof.
  intros H. destruct (parse_ai_response_inv _ _ _ _ H) as (data & _ & Ha).
  destruct (assemble_inv _ _ Ha) as (entries & _ & Hb & _).
  split.
  - rewrite (build_tasks_ids _ _ _ Hb). unfold ids_from_one.
    apply build_tasks_inv, Forall2_length in Hb. now rewrite Hb.
  - apply build_tasks_inv in Hb. clear -Hb.
    induction Hb as [| e t es ts Hc _ IH]; constructor; [apply Hc | exact IH].
Qed.

End MoreInterpreter.

(** ** One attempt and the prober *)

Section MoreProber.
Import AIService PyObject.

Variable loads : str -> outcome json.
Variable post : str -> json -> Z -> reply.
Variable api_key : option str.

(** What holds when an attempt returns. *)
Lemma try_model_inv
    (model_name goal : str) (timeframe : option str) (r : Breakdown) :
  _try_model loads post api_key model_name goal timeframe = Ok r ->
  exists result text,
    post (api_url_of api_key model_name) (payload (_build_prompt goal timeframe)) 30 =
      Response 200 (Ok result) /\
    response_text result = Ok (JStr text) /\
    _parse_ai_response loads text goal = Ok r.
Proof.
  unfold _try_model. intros H.
  destruct (post (api_url_of api_key model_name) (payload (_build_prompt goal timeframe)) 30)
    as [e | status body]; [discriminate H |].
  destruct (Z.eqb_spec status 200) as [-> | _]; [| discriminate H].
  destruct body as [result | |]; try discriminate H. cbn [bind] in H.
  destruct (contains_key (py "candidates") result) as [present | |]; try discriminate H.
  cbn [bind] in H.
  destruct (if present then c <- subscript result (py "candidates");; truthy c else Ok false)
    as [[|] | |]; try discriminate H.
  cbn [bind] in H. exists result. unfold response_text.
  destruct (subscript result (py "candidates")) as [c | |]; try discriminate H.
  cbn [bind] in H |- *.
  destruct (subscript0 c) as [c0 | |]; try discriminate H. cbn [bind] in H |- *.
  destruct (subscript c0 (py "content")) as [c1 | |]; try discriminate H.
  cbn [bind] in H |- *.
  destruct (subscript c1 (py "parts")) as [c2 | |]; try discriminate H.
  cbn [bind] in H |- *.
  destruct (subscript0 c2) as [c3 | |]; try discriminate H. cbn [bind] in H |- *.
  destruct (subscript c3 (py "text")) as [content | |]; try discriminate H.
  cbn [bind] in H. destruct content as [| | | | text | |]; try discriminate H.
  exists text. repeat split. exact H.
Qed.

(** X10.  An attempt returns a breakdown only if the transport answered
    the request for that model with status 200 and a body that decodes,
    the body holds a text at [candidates[0].content.parts[0].text], and
    the interpreter returns that breakdown on this text. *)
Theorem attempt_success_conditions
    (model_name goal : str) (timeframe : option str) (r : Breakdown) :
  _try_model loads post api_key model_name goal timeframe = Ok r ->
  exists result text,
    post (api_url_of api_key model_name) (payload (_build_prompt goal timeframe)) 30 =
      Response 200 (Ok result) /\
    response_text result = Ok (JStr text) /\
    _parse_ai_response loads text goal = Ok r.
Proof. apply try_model_inv. Qed.

(** X11.  An attempt raises, without looking at the body, when the status
    is not 200; it raises too when the body is an object without
    [candidates] or with an empty list of them; and an exception out of
    the request is raised as it is. *)
Theorem attempt_refused (model_name goal : str) (timeframe : option str) :
  (forall e,
     post (api_url_of api_key model_name) (payload (_build_prompt goal timeframe)) 30 =
       PostRaises e ->
     _try_model loads post api_key model_name goal timeframe = Raise e) /\
  (forall status body,
     post (api_url_of api_key model_name) (payload (_build_prompt goal timeframe)) 30 =
       Response status body ->
     status <> 200 ->
     _try_model loads post api_key model_name goal timeframe = Raise (HTTPStatus status)) /\
  (forall members,
     post (api_url_of api_key model_name) (payload (_build_prompt goal timeframe)) 30 =
       Response 200 (Ok (JObj members)) ->
     dict_lookup members (py "candidates") = None \/
     dict_lookup members (py "candidates") = Some (JArr []) ->
     _try_model loads post api_key model_name goal timeframe = Raise NoCandidates).
Proof.
  unfold _try_model. split; [| split].
  - now intros e ->.
  - intros status body -> Hs. now destruct (Z.eqb_spec status 200).
  - intros members -> [Hn | He]; cbn [Z.eqb Pos.eqb bind contains_key subscript];
      [rewrite Hn | rewrite He]; reflexivity.
Qed.

Lemma try_models_raise_inv (models : list str) (goal : str) (timeframe : option str) (e : exn) :
  snd (try_models loads post api_key models goal timeframe) = Raise e ->
  fst (try_models loads post api_key models goal timeframe) = models /\
  Forall (fun m => raises (_try_model loads post api_key m goal timeframe)) models /\
  _create_smart_tasks goal timeframe = Raise e.
Proof.
  induction models as [| m models IH]; cbn [try_models fst snd]; [now repeat split |].
  destruct (_try_model loads post api_key m goal timeframe) as [r | x |] eqn:Em;
    cbn [snd]; try discriminate.
  destruct (try_models loads post api_key models goal timeframe) as [a o].
  cbn [fst snd] in *. intros H. destruct (IH H) as (-> & Hf & Hc).
  repeat split; [constructor; [now exists x | exact Hf] | exact Hc].
Qed.

Lemma try_models_ok_inv (models : list str) (goal : str) (timeframe : option str)
    (r : Breakdown) :
  snd (try_models loads post api_key models goal timeframe) = Ok r ->
  (exists failed m later,
     models = failed ++ m :: later /\
     Forall (fun x => raises (_try_model loads post api_key x goal timeframe)) failed /\
     _try_model loads post api_key m goal timeframe = Ok r /\
     fst (try_models loads post api_key models goal timeframe) = failed ++ [m]) \/
  (Forall (fun x => raises (_try_model loads post api_key x goal timeframe)) models /\
   fst (try_models loads post api_key models goal timeframe) = models /\
   _create_smart_tasks goal timeframe = Ok r).
Proof.
  induction models as [| m models IH]; cbn [try_models fst snd].
  - intros H. right. now repeat split.
  - destruct (_try_model loads post api_key m goal timeframe) as [r' | x |] eqn:Em;
      cbn [fst snd]; try discriminate.
    + intros H. inversion H; subst r'. left. exists [], m, models. now repeat split.
    + destruct (try_models loads post api_key models goal timeframe) as [a o].
      cbn [fst snd] in *. intros H.
      destruct (IH H) as [(failed & m' & later & -> & Hf & Hm & ->) | (Hf & -> & Hc)].
      * left. exists (m :: failed), m', later.
        repeat split; [constructor; [now exists x | exact Hf] | exact Hm].
      * right. repeat split; [constructor; [now exists x | exact Hf] | exact Hc].
Qed.

(** X12.  The only exception [break_down_goal] lets out is [ValueError],
    and only after every model was tried and raised, on a timeframe with
    a digit token that [int] does not convert: one with a superscript
    digit, or one of more than 4300 digits. *)
Theorem prober_raises_only_value_error (goal : str) (timeframe : option str) (e : exn) :
  snd (break_down_goal loads post api_key goal timeframe) = Raise e ->
  e = ValueError /\
  fst (break_down_goal loads post api_key goal timeframe) = possible_models /\
  Forall (fun m => raises (_try_model loads post api_key m goal timeframe)) possible_models /\
  ~ convertible timeframe.
Proof.
  unfold break_down_goal. intros H.
  destruct (try_models_raise_inv _ _ _ _ H) as (Hfst & Hf & Hc).
  unfold _create_smart_tasks in Hc.
  destruct (parse_timeframe_outcome timeframe) as [[h Hh] | Hr].
  - rewrite Hh in Hc. discriminate Hc.
  - rewrite Hr in Hc. cbn [bind] in Hc. inversion Hc; subst e.
    repeat split; try assumption.
    intros Hcv. apply parse_timeframe_returns in Hcv as [h Hh]. congruence.
Qed.

(** X13.  Whatever the transport answers, the models attempted are the
    first ones of the list, in its order: at least the first, at most the
    seven. *)
Theorem attempts_follow_the_list (goal : str) (timeframe : option str) :
  exists untried,
    possible_models = fst (break_down_goal loads post api_key goal timeframe) ++ untried /\
    (1 <= length (fst (break_down_goal loads post api_key goal timeframe)) <= 7)%nat.
Proof.
  destruct (try_models_prefix loads post api_key possible_models goal timeframe)
    as [untried Hu].
  exists untried. split; [exact Hu |]. unfold break_down_goal. split.
  - unfold possible_models at 1. cbn [try_models].
    destruct (_try_model loads post api_key (py "gemini-2.0-flash") goal timeframe);
      cbn [fst length]; try lia.
    match goal with |- context [let (_, _) := ?t in _] => destruct t end.
    cbn [fst length]. lia.
  - apply (f_equal (@length _)) in Hu. rewrite length_app in Hu.
    change (length possible_models) with 7%nat in Hu. lia.
Qed.

(** X14.  A breakdown returned by [break_down_goal] is the one of the
    first attempt that returned, the attempts before it having raised,
    or, every attempt having raised, the one of the fallback generator. *)
Theorem prober_result_origin (goal : str) (timeframe : option str) (r : Breakdown) :
  snd (break_down_goal loads post api_key goal timeframe) = Ok r ->
  (exists failed m later,
     possible_models = failed ++ m :: later /\
     Forall (fun x => raises (_try_model loads post api_key x goal timeframe)) failed /\
     _try_model loads post api_key m goal timeframe = Ok r /\
     fst (break_down_goal loads post api_key goal timeframe) = failed ++ [m]) \/
  (Forall (fun x => raises (_try_model loads post api_key x goal timeframe)) possible_models /\
   fst (break_down_goal loads post api_key goal timeframe) = possible_models /\
   _create_smart_tasks goal timeframe = Ok r).
Proof. unfold break_down_goal. apply try_models_ok_inv. Qed.

Lemma fallback_ids (goal : str) (timeframe : option str) (r : Breakdown) :
  _create_smart_tasks goal timeframe = Ok r ->
  map id (tasks r) = ids_from_one (length (tasks r)) /\
  Forall (fun t => status t = py "pending") (tasks r).
Proof.
  unfold _create_smart_tasks. destruct (_parse_timeframe timeframe); try discriminate.
  cbn [bind]. intros H. inversion H. cbn [tasks]. split; [reflexivity |].
  repeat constructor.
Qed.

(** X15.  In every breakdown [break_down_goal] returns, from a model or
    from the fallback, the identifiers of the tasks are [1], [2], ... in
    order, all different, and every task has the status [pending]. *)
Theorem breakdown_ids_and_status (goal : str) (timeframe : option str) (r : Breakdown) :
  snd (break_down_goal loads post api_key goal timeframe) = Ok r ->
  map id (tasks r) = ids_from_one (length (tasks r)) /\
  NoDup (map id (tasks r)) /\
  Forall (fun t => status t = py "pending") (tasks r).
Proof.
  intros H.
  assert (Hi : map id (tasks r) = ids_from_one (length (tasks r)) /\
               Forall (fun t => status t = py "pending") (tasks r)).
  { destruct (try_models_ok_inv _ _ _ _ H)
      as [(failed & m & later & _ & _ & Hm & _) | (_ & _ & Hf)].
    - destruct (try_model_inv m goal timeframe r Hm) as (result & text & _ & _ & Ht).
      now apply (interpreted_ids loads text goal).
    - now apply (fallback_ids goal timeframe). }
  destruct Hi as [Hi Hs]. repeat split; try assumption.
  rewrite Hi. apply ids_from_one_distinct.
Qed.

End MoreProber.

(** ** The prompt and the timeframe through the prober *)

Section MorePrompt.
Import AIService PyObject.

Variable loads : str -> outcome json.
Variable post : str -> json -> Z -> reply.
Variable api_key : option str.

(** X16.  When every attempt raises, whatever the exceptions, and the
    timeframe converts (its all-digit tokens are made of the digits 0 to
    9, 4300 of them at most), [break_down_goal] returns, after the seven
    attempts, the breakdown of the fallback generator, which has three
    tasks. *)
Theorem prober_absorbs_failures (goal : str) (timeframe : option str) :
  Forall (fun m => raises (_try_model loads post api_key m goal timeframe)) possible_models ->
  convertible timeframe ->
  exists r,
    break_down_goal loads post api_key goal timeframe = (possible_models, Ok r) /\
    _create_smart_tasks goal timeframe = Ok r /\
    length (tasks r) = 3%nat.
Proof.
  intros Hf Hc. unfold break_down_goal. rewrite (try_models_all_fail _ _ _ _ _ _ Hf).
  destruct (fallback_three_tasks goal timeframe Hc) as (r & h & Hr & _ & Hl & _).
  exists r. now rewrite Hr.
Qed.

(** X17.  An empty timeframe is an absent one: the requests sent and the
    outcome of [break_down_goal] are the same for both. *)
Theorem empty_timeframe_is_absent (goal : str) :
  break_down_goal loads post api_key goal (Some []) =
  break_down_goal loads post api_key goal None.
Proof.
  unfold break_down_goal. induction possible_models as [| m models IH];
    cbn [try_models]; [reflexivity |].
  change (_try_model loads post api_key m goal (Some []))
    with (_try_model loads post api_key m goal None).
  now rewrite IH.
Qed.

Lemma contains_here (p s : str) : startswith p s = true -> contains p s = true.
Proof. intros H. destruct s; cbn [contains]; now rewrite H. Qed.

Lemma contains_app (a p b : str) : contains p (a ++ p ++ b) = true.
Proof.
  induction a as [| c a IH]; cbn [app].
  - apply contains_here, startswith_app.
  - cbn [contains]. rewrite IH. apply orb_true_r.
Qed.

(** X18.  The prompt holds the goal as it is, on a line of its own after
    [GOAL: ], followed by the line of the timeframe: the timeframe as it
    is, or [Flexible] when it is absent or empty. *)
Theorem prompt_embeds_goal_and_timeframe (goal : str) (timeframe : option str) :
  contains
    (py "GOAL: " ++ goal ++ newline
     ++ py "TIMEFRAME: "
     ++ match timeframe with Some (c :: tf) => c :: tf | _ => py "Flexible" end
     ++ newline)
    (_build_prompt goal timeframe) = true.
Proof.
  unfold _build_prompt.
  set (shown := match timeframe with Some (c :: tf) => c :: tf | _ => py "Flexible" end).
  assert (E : match timeframe with
              | Some (c :: tf) => py "TIMEFRAME: " ++ c :: tf
              | _ => py "TIMEFRAME: Flexible"
              end = py "TIMEFRAME: " ++ shown).
  { unfold shown. now destruct timeframe as [[| c tf] |]. }
  rewrite E.
  match goal with
  | |- contains ?p (?h ++ newline ++ _ ++ _ ++ _ ++ _ ++ _ ++ ?rest) = true =>
      replace (h ++ newline ++ py "GOAL: " ++ goal ++ newline
               ++ (py "TIMEFRAME: " ++ shown) ++ newline ++ rest)
        with ((h ++ newline) ++ p ++ rest)
        by (now rewrite <- !app_assoc)
  end.
  apply contains_app.
Qed.

End MorePrompt.

(** ** Runs for the further properties *)

Section MoreRuns.
Import AIService PyObject Samples.

Lemma timeframe_returns_iff_decimal_witness :
  returns (_parse_timeframe (Some (py "2 weeks"))) /\
  _parse_timeframe (Some [chr 178]) = Raise ValueError /\
  _parse_timeframe (Some (repeat (chr 49) 4301 ++ py " hours")) = Raise ValueError.
Proof.
  split; [| split].
  - apply (proj2 (proj1 (timeframe_returns_iff_decimal (Some (py "2 weeks"))))).
    vm_compute. repeat constructor.
  - apply (proj2 (proj2 (timeframe_returns_iff_decimal (Some [chr 178])))).
    intros H. vm_compute in H. inversion H as [| t ts Ht _]. discriminate Ht.
  - apply (proj2 (proj2 (timeframe_returns_iff_decimal
                           (Some (repeat (chr 49) 4301 ++ py " hours"))))).
    intros H. unfold convertible, decimal_tokens in H.
    apply Forall_forall with (x := repeat (chr 49) 4301) in H.
    + vm_compute in H. discriminate H.
    + vm_compute. left. reflexivity.
Defined.

Lemma timeframe_ignores_case_witness :
  _parse_timeframe (Some (py "2 WEEKS")) = _parse_timeframe (Some (py "2 weeks")).
Proof. apply timeframe_ignores_case. reflexivity. Defined.

Lemma glued_number_is_not_read_witness :
  _parse_timeframe (Some (py "2weeks")) = Ok 40.
Proof.
  rewrite (glued_number_is_not_read (py "2weeks")); [reflexivity | | |].
  - discriminate.
  - reflexivity.
  - reflexivity.
Defined.

Lemma fallback_hours_against_total_witness :
  exists r a b c,
    _create_smart_tasks (py "x") (Some (py "1 hour")) = Ok r /\
    map estimated_hours (tasks r) = [JInt a; JInt b; JInt c] /\
    a + b + c = 3.
Proof.
  assert (E : exists r, _create_smart_tasks (py "x") (Some (py "1 hour")) = Ok r)
    by (eexists; reflexivity).
  destruct E as [r E].
  destruct (fallback_hours_against_total (py "x") (Some (py "1 hour")) r E)
    as (a & b & c & h & Hh & Ht & _ & _ & _ & _ & Hsmall & _).
  exists r, a, b, c. split; [exact E |]. split; [exact Hh |].
  apply Hsmall. unfold _create_smart_tasks in E. cbn in E. injection E as <-.
  cbn in Ht. injection Ht as <-. reflexivity.
Defined.

Lemma interpreter_copies_entries_witness :
  Forall2 copied answer_entries (tasks answer_breakdown) /\
  subscript answer_document (py "reasoning") = Ok (reasoning answer_breakdown).
Proof.
  exact (interpreter_copies_entries Json.loads answer (py "Learn")
           answer_document answer_entries answer_breakdown
           answer_decodes answer_entries_listed answer_interpreted).
Defined.

Lemma non_numeric_hours_raise_witness :
  raises (_parse_ai_response Json.loads answer_text_hours (py "Learn")).
Proof.
  eapply (non_numeric_hours_raise Json.loads answer_text_hours (py "Learn")
            _ _ _ (JStr (py "2"))).
  - vm_compute. reflexivity.
  - vm_compute. reflexivity.
  - left. reflexivity.
  - vm_compute. reflexivity.
  - reflexivity.
Defined.

Lemma tasks_of_another_type_witness :
  _parse_ai_response Json.loads answer_tasks_empty_string (py "Learn") =
  Ok {| reasoning := JStr (py "Nothing to do"); tasks := []; total_estimated_hours := PyInt 0 |}.
Proof.
  apply (tasks_of_another_type Json.loads answer_tasks_empty_string (py "Learn")
           [ (py "reasoning", JStr (py "Nothing to do")); (py "tasks", JStr []) ]
           (JStr [])).
  - vm_compute. reflexivity.
  - vm_compute. reflexivity.
  - vm_compute. reflexivity.
Defined.

Lemma interpreter_ignores_surrounding_blanks_witness :
  _parse_ai_response Json.loads (py "  " ++ plain_answer ++ newline) (py "Learn") =
  _parse_ai_response Json.loads plain_answer (py "Learn").
Proof.
  apply interpreter_ignores_surrounding_blanks; repeat constructor.
Defined.

Lemma unread_member_of_an_entry_witness :
  _parse_ai_response Json.loads answer_with_owner (py "Learn") =
  _parse_ai_response Json.loads answer (py "Learn").
Proof.
  eapply (unread_member_of_an_entry Json.loads answer_with_owner answer (py "Learn")
            _ _ []
            [ JObj [ (py "title", JStr (py "Write"));
                     (py "description", JStr (py "Write the notes"));
                     (py "estimated_hours", JInt 3);
                     (py "priority", JStr (py "low")) ] ]
            [ (py "title", JStr (py "Read")); (py "description", JStr (py "Read the guide")) ]
            [ (py "estimated_hours", JInt 2); (py "priority", JStr (py "high")) ]
            (py "owner") (JStr (py "me"))).
  - vm_compute. reflexivity.
  - vm_compute. reflexivity.
  - vm_compute. reflexivity.
  - vm_compute. reflexivity.
  - vm_compute. reflexivity.
  - vm_compute. reflexivity.
Defined.

Lemma attempt_success_conditions_witness :
  exists result text,
    second_answers (api_url_of (Some (py "k")) (py "gemini-2.0-flash-001"))
                   (payload (_build_prompt (py "Learn") None)) 30 =
      Response 200 (Ok result) /\
    response_text result = Ok (JStr text) /\
    _parse_ai_response Json.loads text (py "Learn") = Ok answer_breakdown.
Proof.
  apply (attempt_success_conditions Json.loads second_answers (Some (py "k"))
           (py "gemini-2.0-flash-001") (py "Learn") None answer_breakdown).
  vm_compute. reflexivity.
Defined.

Lemma attempt_refused_witness :
  _try_model Json.loads unavailable None (py "gemini-2.5-pro") (py "Learn") None =
    Raise (HTTPStatus 503) /\
  _try_model Json.loads silent None (py "gemini-2.5-pro") (py "Learn") None =
    Raise NoCandidates.
Proof.
  split.
  - apply (proj1 (proj2 (attempt_refused Json.loads unavailable None
                           (py "gemini-2.5-pro") (py "Learn") None))
             503 (Ok (body_with answer))).
    + reflexivity.
    + discriminate.
  - apply (proj2 (proj2 (attempt_refused Json.loads silent None
                           (py "gemini-2.5-pro") (py "Learn") None))
             [ (py "candidates", JArr []) ]).
    + reflexivity.
    + right. reflexivity.
Defined.

Lemma prober_raises_only_value_error_witness :
  ValueError = ValueError /\
  fst (break_down_goal Json.loads offline None (py "x") (Some [chr 178])) = possible_models /\
  Forall (fun m => raises (_try_model Json.loads offline None m (py "x") (Some [chr 178])))
         possible_models /\
  ~ convertible (Some [chr 178]).
Proof.
  apply (prober_raises_only_value_error Json.loads offline None (py "x") (Some [chr 178])).
  reflexivity.
Defined.

Lemma second_answers_run :
  snd (break_down_goal Json.loads second_answers (Some (py "k")) (py "Learn") None) =
  Ok answer_breakdown.
Proof. vm_compute. reflexivity. Defined.

Lemma prober_result_origin_witness :
  (exists failed m later,
     possible_models = failed ++ m :: later /\
     Forall (fun x => raises (_try_model Json.loads second_answers (Some (py "k")) x
                                (py "Learn") None)) failed /\
     _try_model Json.loads second_answers (Some (py "k")) m (py "Learn") None =
       Ok answer_breakdown /\
     fst (break_down_goal Json.loads second_answers (Some (py "k")) (py "Learn") None) =
       failed ++ [m]) \/
  (Forall (fun x => raises (_try_model Json.loads second_answers (Some (py "k")) x
                              (py "Learn") None)) possible_models /\
   fst (break_down_goal Json.loads second_answers (Some (py "k")) (py "Learn") None) =
     possible_models /\
   _create_smart_tasks (py "Learn") None = Ok answer_breakdown).
Proof.
  exact (prober_result_origin Json.loads second_answers (Some (py "k")) (py "Learn") None
           answer_breakdown second_answers_run).
Defined.

Lemma breakdown_ids_and_status_witness :
  map id (tasks answer_breakdown) = ids_from_one (length (tasks answer_breakdown)) /\
  NoDup (map id (tasks answer_breakdown)) /\
  Forall (fun t => status t = py "pending") (tasks answer_breakdown).
Proof.
  exact (breakdown_ids_and_status Json.loads second_answers (Some (py "k")) (py "Learn") None
           answer_breakdown second_answers_run).
Defined.

Lemma prober_absorbs_failures_witness :
  exists r,
    break_down_goal Json.loads offline None (py "Learn Spanish") (Some (py "2 weeks")) =
      (possible_models, Ok r) /\
    _create_smart_tasks (py "Learn Spanish") (Some (py "2 weeks")) = Ok r /\
    length (tasks r) = 3%nat.
Proof.
  apply (prober_absorbs_failures Json.loads offline None (py "Learn Spanish")
           (Some (py "2 weeks"))).
  - repeat constructor; eexists; reflexivity.
  - vm_compute. repeat constructor.
Defined.

End MoreRuns.
